(** * Midea IR remote: protocol encoder and interrupt-driven transmitter

    A shallow embedding of [midea_ir.c]: the packet encoder, the frame builder,
    the pulse-train builder and the timer callback that plays the pulses back.

    Conventions of the embedding:
    - a [uint8_t] is a [Z] whose wrap-around is written out with [u8];
    - a 4-bit bit-field is a [Z] truncated with [nib] on every store;
    - a C array is a [list Z]; a read or write outside the array has no
      defined meaning in C and makes the embedded function return [None];
    - the global [ir_state], the run state of timer 1 and the level last
      written to the IR LED line are threaded explicitly as a [Board]. *)

From Stdlib Require Import ZArith List Lia Bool.
From stdpp Require Import base option list.

Local Open Scope Z_scope.

(** ** Machine integers *)

Definition u8 (z : Z) : Z := z mod 256.
Definition nib (z : Z) : Z := z mod 16.

(** C truth value of an integer expression. *)
Definition truthy (z : Z) : bool := negb (z =? 0).

(** ** Arrays *)

Definition arr_get (a : list Z) (i : Z) : option Z :=
  if (0 <=? i) && (i <? Z.of_nat (length a)) then a !! Z.to_nat i else None.

Definition arr_set (a : list Z) (i : Z) (v : Z) : option (list Z) :=
  if (0 <=? i) && (i <? Z.of_nat (length a))
  then Some (<[Z.to_nat i := v]> a) else None.

(** ** Types of the driver *)

(** Modelled from the spec: the header [midea_ir.h] is not part of the
    sources at hand.  The specification gives the mode as
    [enum {Cool, Heat, Auto, Fan}]; the protocol comment of [midea_ir.c]
    lists the command nibble of each mode. *)
Inductive MideaMode : Type := MODE_COOL | MODE_HEAT | MODE_AUTO | MODE_FAN.

Definition mode_value (m : MideaMode) : Z :=
  match m with
  | MODE_COOL => 0   (* 0b0000 *)
  | MODE_HEAT => 12  (* 0b1100 *)
  | MODE_AUTO => 8   (* 0b1000 *)
  | MODE_FAN => 4    (* 0b0100 *)
  end.

Definition MideaMode_eqb (a b : MideaMode) : bool :=
  mode_value a =? mode_value b.

(** Modelled from the spec: the supported range [17, 30] of the temperature
    ([TEMP_LOW] and [TEMP_HIGH] are defined in the missing header). *)
Definition TEMP_LOW : Z := 17.
Definition TEMP_HIGH : Z := 30.

(** Modelled from the spec: the caller-owned state ([MideaIR] is declared in
    the missing header).  The integer fields are left unbounded, so every
    value a C integer type can hold is covered. *)
Record MideaIR : Type := mkMideaIR {
  temperature : Z;
  fan_level : Z;
  mode : MideaMode;
  enabled : bool
}.

Record DataPacket : Type := mkDataPacket {
  magic : Z;   (* 0xB2 always *)
  state : Z;   (* : 4 *)
  fan : Z;     (* : 4 *)
  command : Z; (* : 4 *)
  temp : Z     (* : 4 *)
}.

Definition RAW_DATA_PACKET_SIZE : nat := 6.
Definition PULSES_CAPACITY : nat := 29.
Definition SUB_PULSES_PER_PULSE : Z := 42.

Record IrState : Type := mkIrState {
  pin_number : Z;
  pulses : list Z;
  pulses_size : Z;
  repeat_count : Z;
  current_pulse : Z;
  current_sub_pulse : Z
}.

Inductive GPIO_PinState : Type := GPIO_PIN_RESET | GPIO_PIN_SET.

#[global] Instance GPIO_PinState_eq_dec : EqDecision GPIO_PinState.
Proof. solve_decision. Defined.

(** The global [ir_state] together with the two pieces of hardware the driver
    acts on: whether timer 1 raises its periodic interrupt, and the level
    last written to [IR_LED_Pin]. *)
Record Board : Type := mkBoard {
  ir_state : IrState;
  htim1_running : bool;
  IR_LED : GPIO_PinState
}.

Definition with_ir (f : IrState -> IrState) (b : Board) : Board :=
  mkBoard (f (ir_state b)) (htim1_running b) (IR_LED b).

Definition set_pulses (ps : list Z) (s : IrState) : IrState :=
  mkIrState (pin_number s) ps (pulses_size s) (repeat_count s)
            (current_pulse s) (current_sub_pulse s).
Definition set_pulses_size (n : Z) (s : IrState) : IrState :=
  mkIrState (pin_number s) (pulses s) n (repeat_count s)
            (current_pulse s) (current_sub_pulse s).
Definition set_repeat_count (n : Z) (s : IrState) : IrState :=
  mkIrState (pin_number s) (pulses s) (pulses_size s) n
            (current_pulse s) (current_sub_pulse s).
Definition set_current_pulse (n : Z) (s : IrState) : IrState :=
  mkIrState (pin_number s) (pulses s) (pulses_size s) (repeat_count s)
            n (current_sub_pulse s).
Definition set_current_sub_pulse (n : Z) (s : IrState) : IrState :=
  mkIrState (pin_number s) (pulses s) (pulses_size s) (repeat_count s)
            (current_pulse s) n.

Definition HAL_GPIO_WritePin (lvl : GPIO_PinState) (b : Board) : Board :=
  mkBoard (ir_state b) (htim1_running b) lvl.
Definition HAL_TIM_Base_Start_IT (b : Board) : Board :=
  mkBoard (ir_state b) true (IR_LED b).
Definition HAL_TIM_Base_Stop_IT (b : Board) : Board :=
  mkBoard (ir_state b) false (IR_LED b).

(** ** Lookup tables *)

Definition temperature_table : list Z :=
  [ 0; 1; 3; 2; 6; 7; 5; 4; 12; 13; 9; 8; 10; 11 ].

Definition fan_table : list Z := [ 11; 9; 5; 3 ].

(** ** The timer callback *)

(** [pulses[k / 8] & (1 << (k % 8))], converted to [bool]. *)
Definition pulse_at (ps : list Z) (k : Z) : option bool :=
  byte ← arr_get ps (k / 8);
  Some (truthy (Z.land byte (Z.shiftl 1 (k mod 8)))).

Definition HAL_TIM_PeriodElapsedCallback (b : Board) : option Board :=
  let s := ir_state b in
  pulse_val ← pulse_at (pulses s) (current_pulse s);
  if current_sub_pulse s <? SUB_PULSES_PER_PULSE then
    let b1 :=
      if negb (truthy (current_sub_pulse s mod 2)) && pulse_val
      then HAL_GPIO_WritePin GPIO_PIN_RESET b
      else HAL_GPIO_WritePin GPIO_PIN_SET b in
    Some (with_ir (set_current_sub_pulse (u8 (current_sub_pulse s + 1))) b1)
  else
    (* pulse is finished *)
    let b1 := with_ir (set_current_sub_pulse 0) b in
    let b2 := with_ir (set_current_pulse (u8 (current_pulse s + 1))) b1 in
    if pulses_size (ir_state b2) <=? current_pulse (ir_state b2) then
      let b3 := with_ir (set_repeat_count (u8 (repeat_count s - 1))) b2 in
      if truthy (repeat_count (ir_state b3)) then
        Some (with_ir (set_current_sub_pulse 0)
                (with_ir (set_current_pulse 0) b3))
      else
        Some (HAL_GPIO_WritePin GPIO_PIN_RESET (HAL_TIM_Base_Stop_IT b3))
    else Some b2.

(** The update interrupt of timer 1 reaches the callback only while the timer
    runs with its interrupt enabled. *)
Definition TIM1_IRQ (b : Board) : option Board :=
  if htim1_running b then HAL_TIM_PeriodElapsedCallback b else Some b.

Fixpoint run (n : nat) (b : Board) : option Board :=
  match n with
  | O => Some b
  | S n' => b' ← TIM1_IRQ b; run n' b'
  end.

(** ** The packet encoder *)

Definition pack_data (ir : MideaIR) : option DataPacket :=
  let magic := u8 0xB2 in
  if enabled ir then
    fan ←
      (if MideaMode_eqb (mode ir) MODE_AUTO
       then Some (nib 1) (* for auto mode fan must be 0b0001 *)
       else nib <$> arr_get fan_table (fan_level ir));
    let state := nib 15 in (* on *)
    let command := nib (mode_value (mode ir)) in
    temp ←
      (if MideaMode_eqb (mode ir) MODE_FAN
       then Some (nib 14)
       else if (TEMP_LOW <=? temperature ir) && (temperature ir <=? TEMP_HIGH)
            then nib <$> arr_get temperature_table (temperature ir - TEMP_LOW)
            else Some (nib 4));
    Some (mkDataPacket magic state fan command temp)
  else
    Some (mkDataPacket magic (nib 11) (nib 7) (nib 0) (nib 14)).

(** ** Initialisation *)

Definition midea_ir_init (ir : MideaIR) (b : Board) : MideaIR * Board :=
  let b1 := with_ir (set_repeat_count 0) b in (* indicates IDLE state *)
  let ir' := mkMideaIR 24 0 MODE_AUTO false in
  (ir', HAL_GPIO_WritePin GPIO_PIN_RESET b1).

(** ** The pulse-train builder *)

(** [for (i = 0; i < n; i++) pulses[i] = 0;] *)
Fixpoint zero_fill (n : nat) (i : Z) (ps : list Z) : option (list Z) :=
  match n with
  | O => Some ps
  | S n' => ps' ← arr_set ps i 0; zero_fill n' (i + 1) ps'
  end.

Definition init_buff (b : Board) : option Board :=
  let b1 := with_ir (set_current_pulse 0) b in
  let b2 := with_ir (set_current_sub_pulse 0) b1 in
  ps ← zero_fill PULSES_CAPACITY 0 (pulses (ir_state b2));
  Some (with_ir (set_pulses ps) b2).

Definition add_start (b : Board) : option Board :=
  ps1 ← arr_set (pulses (ir_state b)) 0 (u8 255);
  ps2 ← arr_set ps1 1 (u8 0);
  Some (with_ir (set_current_pulse (u8 (8 * 2))) (with_ir (set_pulses ps2) b)).

Definition add_bit (bit : bool) (b : Board) : option Board :=
  let s := ir_state b in
  (* add 1 to the pulses *)
  old ← arr_get (pulses s) (current_pulse s / 8);
  ps ← arr_set (pulses s) (current_pulse s / 8)
         (u8 (Z.lor old (Z.shiftl 1 (current_pulse s mod 8))));
  let b1 := with_ir (set_pulses ps) b in
  let b2 := with_ir (set_current_pulse (u8 (current_pulse s + 1))) b1 in
  if bit then
    (* bit 1 -> pulses 1000 *)
    Some (with_ir (set_current_pulse (u8 (current_pulse (ir_state b2) + 3))) b2)
  else
    (* bit 0 -> pulses 10 *)
    Some (with_ir (set_current_pulse (u8 (current_pulse (ir_state b2) + 1))) b2).

Definition add_stop (b : Board) : option Board :=
  b1 ← add_bit true b;
  Some (with_ir (set_current_pulse (u8 (current_pulse (ir_state b1) + 8))) b1).

Definition start (repeat : Z) (b : Board) : Board :=
  let b1 := with_ir (set_pulses_size (current_pulse (ir_state b))) b in
  let b2 := with_ir (set_current_pulse 0) b1 in
  let b3 := with_ir (set_current_sub_pulse 0) b2 in
  let b4 := with_ir (set_repeat_count (u8 repeat)) b3 in
  HAL_TIM_Base_Start_IT b4.

(** ** The frame builder *)

(** The loop walks [src] and [dst] with two pointers: the rest of [src] is the
    argument, the bytes stored through [dst] are the result, in order. *)
Fixpoint add_complementary_bytes_loop (n : nat) (src : list Z)
  : option (list Z) :=
  match n with
  | O => Some []
  | S n' =>
      match src with
      | [] => None
      | x :: src' =>
          rest ← add_complementary_bytes_loop n' src';
          Some (x :: u8 (Z.lnot x) :: rest)
      end
  end.

Definition add_complementary_bytes (src : list Z) : option (list Z) :=
  add_complementary_bytes_loop 3 src.

(** ** Sending *)

(** [for (i = 0; i < n; i++) { add_bit(v & (1 << 7)); v <<= 1; }] *)
Fixpoint send_byte_loop (n : nat) (v : Z) (b : Board) : option Board :=
  match n with
  | O => Some b
  | S n' =>
      b' ← add_bit (truthy (Z.land v (Z.shiftl 1 7))) b;
      send_byte_loop n' (u8 (Z.shiftl v 1)) b'
  end.

(** [for (b = i; b < i + n; b++) { v = data[b]; ... }] *)
Fixpoint send_bytes_loop (n : nat) (i : Z) (data : list Z) (b : Board)
  : option Board :=
  match n with
  | O => Some b
  | S n' =>
      v ← arr_get data i;
      b' ← send_byte_loop 8 v b;
      send_bytes_loop n' (i + 1) data b'
  end.

Definition send_ir_data (data : list Z) (repeat : Z) (b : Board)
  : option Board :=
  b1 ← init_buff b;
  b2 ← add_start b1;
  b3 ← send_bytes_loop RAW_DATA_PACKET_SIZE 0 data b2;
  b4 ← add_stop b3;
  Some (start repeat b4).

(** The three bytes [(uint8_t * )&packet] points at.  The fields of one
    storage unit are allocated from its least significant bit upwards (the
    ARM EABI layout used for this STM32 target), which yields the byte
    order [magic] [ffff ssss] [tttt cccc] of the protocol comment. *)
Definition packet_bytes (p : DataPacket) : list Z :=
  [ magic p; Z.lor (state p) (Z.shiftl (fan p) 4);
    Z.lor (command p) (Z.shiftl (temp p) 4) ].

Definition midea_ir_send (ir : MideaIR) (b : Board) : option Board :=
  packet ← pack_data ir;
  data ← add_complementary_bytes (packet_bytes packet);
  send_ir_data data 2 b.

Definition midea_ir_move_deflector (ir : MideaIR) (b : Board) : option Board :=
  let data := [ 0xB2; 0x0F; 0xE0 ] in
  raw_data ← add_complementary_bytes data;
  send_ir_data raw_data 1 b.

(** ** Reading the slot buffer *)

(** The slots of a transmission, each read the way the callback reads it. *)
Definition slots_of (s : IrState) : option (list bool) :=
  mapM (fun k => pulse_at (pulses s) (Z.of_nat k))
       (seq 0 (Z.to_nat (pulses_size s))).

(** A board after reset: zero-initialised static storage. *)
Definition reset_board : Board :=
  mkBoard (mkIrState 0 (replicate PULSES_CAPACITY 0) 0 0 0 0) false GPIO_PIN_RESET.

(** ** The pulse train as the specification describes it *)

(** The eight bits of a byte, most significant first. *)
Definition byte_bits (v : Z) : list bool :=
  map (fun i => Z.testbit v (7 - Z.of_nat i)) (seq 0 8).

Definition frame_bits (frame : list Z) : list bool := flat_map byte_bits frame.

(** Start condition: 8 marks, then 8 spaces. *)
Definition spec_start_slots : list bool := replicate 8 true ++ replicate 8 false.

(** One data bit: a mark, then 1 space for a 0 and 3 spaces for a 1. *)
Definition spec_bit_slots (bit : bool) : list bool :=
  true :: replicate (if bit then 3 else 1) false.

Definition spec_data_slots (frame : list Z) : list bool :=
  flat_map spec_bit_slots (frame_bits frame).

(** Stop marker as [add_stop] writes it: the mark and three spaces of a
    1-bit, then 8 more spaces. *)
Definition stop_slots : list bool := true :: replicate 11 false.

Definition pulse_train (frame : list Z) : list bool :=
  spec_start_slots ++ spec_data_slots frame ++ stop_slots.

(** Slots taken by the data bits: 2 for a 0, 4 for a 1. *)
Definition data_slot_count (frame : list Z) : Z :=
  fold_right Z.add 0 (map (fun bit : bool => if bit then 4 else 2) (frame_bits frame)).

(** Slot count as the specification states it: 9 stop slots. *)
Definition spec_slot_count (frame : list Z) : Z := 16 + data_slot_count frame + 9.

(** Slot count with the stop marker of [add_stop]: 12 stop slots. *)
Definition slot_count (frame : list Z) : Z := 16 + data_slot_count frame + 12.

(** ** The decoder used as test oracle

    The firmware has no receiver; this is the decoder the specification
    describes for the round trip: skip the start condition, then for each of
    the 48 bits read a mark and count the spaces up to the next mark. *)

Fixpoint count_spaces (l : list bool) : nat * list bool :=
  match l with
  | false :: l' => let '(n, rest) := count_spaces l' in (S n, rest)
  | _ => (O, l)
  end.

Fixpoint decode_bits (n : nat) (l : list bool) : option (list bool) :=
  match n with
  | O => Some []
  | S n' =>
      match l with
      | true :: l' =>
          let '(k, rest) := count_spaces l' in
          bit ← (if Nat.eqb k 1 then Some false
                 else if Nat.eqb k 3 then Some true else None);
          bits ← decode_bits n' rest;
          Some (bit :: bits)
      | _ => None
      end
  end.

Definition bits_to_byte (bits : list bool) : Z :=
  fold_left (fun acc (bit : bool) => 2 * acc + (if bit then 1 else 0)) bits 0.

Fixpoint bits_to_bytes (n : nat) (bits : list bool) : list Z :=
  match n with
  | O => []
  | S n' => bits_to_byte (take 8 bits) :: bits_to_bytes n' (drop 8 bits)
  end.

Definition decode_slots (slots : list bool) : option (list Z) :=
  bits ← decode_bits 48 (drop 16 slots);
  Some (bits_to_bytes 6 bits).

(** ** Well-formed data *)

Definition is_byte (v : Z) : Prop := 0 <= v < 256.

(** The [pulses] array has [PULSES_CAPACITY] elements. *)
Definition wf_board (b : Board) : Prop :=
  length (pulses (ir_state b)) = PULSES_CAPACITY.

(** ** Invariants used in the proofs *)

(** [Built b L]: the builder has written exactly the slots [L] so far, and
    every later slot of the buffer is still a space. *)
Definition Built (b : Board) (L : list bool) : Prop :=
  wf_board b /\
  current_pulse (ir_state b) = Z.of_nat (length L) /\
  forall k, 0 <= k < 8 * Z.of_nat PULSES_CAPACITY ->
    pulse_at (pulses (ir_state b)) k = Some (nth (Z.to_nat k) L false).

(** The bits [send_byte_loop] passes to [add_bit] in [n] rounds. *)
Fixpoint shifted_bits (n : nat) (v : Z) : list bool :=
  match n with
  | O => []
  | S n' => Z.testbit v 7 :: shifted_bits n' (u8 (Z.shiftl v 1))
  end.

(** [Playing ps size reps r p s b]: the engine plays the buffer [ps] of [size]
    slots for [reps] passes, and is in pass [r] (counted from 0), at slot [p],
    at sub-tick [s]. *)
Definition Playing (ps : list Z) (size reps r p s : Z) (b : Board) : Prop :=
  pulses (ir_state b) = ps /\
  pulses_size (ir_state b) = size /\
  repeat_count (ir_state b) = reps - r /\
  current_pulse (ir_state b) = p /\
  current_sub_pulse (ir_state b) = s /\
  htim1_running b = true.

(** The engine is idle: no repeat left, timer stopped, line at the level the
    callback writes on completion. *)
Definition Idle (ps : list Z) (size : Z) (b : Board) : Prop :=
  pulses (ir_state b) = ps /\
  pulses_size (ir_state b) = size /\
  repeat_count (ir_state b) = 0 /\
  htim1_running b = false /\
  IR_LED b = GPIO_PIN_RESET.

(** A slot takes 42 sub-ticks and one more tick that moves to the next slot. *)
Definition TICKS_PER_SLOT : Z := SUB_PULSES_PER_PULSE + 1.

(** Number of the tick at which pass [r], slot [p], sub-tick [s] is reached. *)
Definition tick_index (size r p s : Z) : Z := TICKS_PER_SLOT * (size * r + p) + s.

(** ** Concrete inputs used in examples *)

(** The frame of the deflector command: [0xB2 0x0F 0xE0] with complements. *)
Definition deflector_frame : list Z := [ 0xB2; 0x4D; 0x0F; 0xF0; 0xE0; 0x1F ].

(** Cooling at 24 degrees with a fan level one past the last table entry. *)
Definition ir_fan_level_4 : MideaIR := mkMideaIR 24 4 MODE_COOL true.

(** Two switched-off states that differ in every other field. *)
Definition ir_off_a : MideaIR := mkMideaIR 17 0 MODE_COOL false.
Definition ir_off_b : MideaIR := mkMideaIR 99 7 MODE_FAN false.

(** The board right after [midea_ir_move_deflector] on a board after reset. *)
Definition deflector_armed : Board :=
  mkBoard
    (mkIrState 0
       [ 255; 0; 81; 68; 69; 69; 69; 20; 85; 17; 17; 17; 17; 85; 17; 81;
         85; 21; 17; 17; 1; 0; 0; 0; 0; 0; 0; 0; 0 ]
       172 1 0 0)
    true GPIO_PIN_RESET.

(** The board right after [midea_ir_send] for cooling at 22 degrees with fan
    level 2, on a board after reset: 172 slots, 2 repeats. *)
Definition cool_22 : MideaIR := mkMideaIR 22 2 MODE_COOL true.

Definition cool_armed : Board :=
  mkBoard
    (mkIrState 0
       [ 255; 0; 81; 68; 69; 69; 69; 20; 69; 17; 17; 17; 69; 85; 69; 68;
         85; 84; 17; 17; 1; 0; 0; 0; 0; 0; 0; 0; 0 ]
       172 2 0 0)
    true GPIO_PIN_RESET.

(** A packet of three arbitrary bytes. *)
Definition sample_packet : list Z := [ 0xB2; 0x5F; 0x70 ].

(** ** The display driver ([display.c]) *)

Definition pattern : list Z :=
  [ 0x3F; 0x06; 0x5B; 0x4F; 0x66; 0x6D; 0x7D; 0x07; 0x7F; 0x6F;
    0x77; 0x7C; 0x39; 0x5E; 0x79; 0x71; 0x00 ].

(** A call of [HAL_SPI_Transmit]: the buffer handed over and the [Size]
    argument. *)
Record SpiTransfer : Type := mkSpiTransfer {
  spi_data : list Z;
  spi_size : Z
}.

(** [while (bcd[1] >= 10) { bcd[1] -= 10; bcd[0]++; if (bcd[0] >= 10)
    bcd[0] -= 10; }], with [fuel] bounding the number of rounds. *)
Fixpoint bcd_loop (fuel : nat) (bcd0 bcd1 : Z) : option (Z * Z) :=
  if 10 <=? bcd1 then
    match fuel with
    | O => None
    | S fuel' =>
        let bcd1' := u8 (bcd1 - 10) in
        let bcd0' := u8 (bcd0 + 1) in
        let bcd0'' := if 10 <=? bcd0' then u8 (bcd0' - 10) else bcd0' in
        bcd_loop fuel' bcd0'' bcd1'
    end
  else Some (bcd0, bcd1).

Definition DisplayDecimal (fuel : nat) (value : Z) : option SpiTransfer :=
  '(bcd0, bcd1) ← bcd_loop fuel 0 value;
  p1 ← arr_get pattern bcd1;
  let bcd1' := u8 (0xFF - p1) in
  p0 ← arr_get pattern bcd0;
  let bcd0' := u8 (0xFF - p0) in
  Some (mkSpiTransfer [ bcd0'; bcd1' ] 1).

Definition DisplayHex (value : Z) : option SpiTransfer :=
  p0 ← arr_get pattern (Z.land (Z.shiftr value 4) 0x0F);
  p1 ← arr_get pattern (Z.land value 0x0F);
  Some (mkSpiTransfer [ u8 (0xFF - p0); u8 (0xFF - p1) ] 1).

Definition DisplayOff : SpiTransfer := mkSpiTransfer [ 0; 0 ] 1.

#[global] Instance SpiTransfer_eq_dec : EqDecision SpiTransfer.
Proof. solve_decision. Defined.

(** Enough rounds for every [uint8_t] value: 255 needs 25. *)
Definition BCD_FUEL : nat := 25.

(** ** Further invariants used in the proofs *)

(** While the timer runs, the slot cursor is inside the recorded slots and
    those are inside the buffer. *)
Definition Safe (b : Board) : Prop :=
  wf_board b /\
  (htim1_running b = true ->
   0 <= current_pulse (ir_state b) < pulses_size (ir_state b) /\
   pulses_size (ir_state b) <= 8 * Z.of_nat PULSES_CAPACITY).

(** The complement relation a receiver checks on a frame of 6 bytes. *)
Definition complement_ok (frame : list Z) : Prop :=
  forall (i : nat) (x y : Z), i = 0%nat \/ i = 2%nat \/ i = 4%nat ->
    frame !! i = Some x -> frame !! (i + 1)%nat = Some y -> Z.lxor x y = 0xFF.

(** * Proofs *)

(** ** Bit-level facts *)

Lemma truthy_land_bit (x i : Z) :
  0 <= i -> truthy (Z.land x (Z.shiftl 1 i)) = Z.testbit x i.
Proof.
  intros Hi. unfold truthy. rewrite Z.shiftl_1_l.
  destruct (Z.testbit x i) eqn:Hb.
  - apply negb_true_iff, Z.eqb_neq. intros H0.
    assert (Hc : Z.testbit (Z.land x (2 ^ i)) i = true).
    { rewrite Z.land_spec, Hb, Z.pow2_bits_true by lia. reflexivity. }
    rewrite H0, Z.bits_0 in Hc. discriminate.
  - apply negb_false_iff, Z.eqb_eq. apply Z.bits_inj'. intros n Hn.
    rewrite Z.land_spec, Z.bits_0, Z.pow2_bits_eqb by lia.
    destruct (Z.eqb_spec i n) as [->|]; [rewrite Hb|]; simpl;
      auto using andb_false_r.
Qed.

Lemma u8_testbit_low (x j : Z) :
  0 <= j < 8 -> Z.testbit (u8 x) j = Z.testbit x j.
Proof.
  intros Hj. unfold u8. change 256 with (2 ^ 8).
  apply Z.mod_pow2_bits_low. lia.
Qed.

Lemma shl1_testbit (w j : Z) :
  0 <= j < 8 -> Z.testbit (u8 (Z.shiftl w 1)) j = Z.testbit w (j - 1).
Proof.
  intros Hj. rewrite u8_testbit_low by lia. apply Z.shiftl_spec. lia.
Qed.

Lemma set_bit_testbit (old c j : Z) :
  0 <= c < 8 -> 0 <= j < 8 ->
  Z.testbit (u8 (Z.lor old (Z.shiftl 1 c))) j = Z.testbit old j || (j =? c).
Proof.
  intros Hc Hj. rewrite u8_testbit_low, Z.lor_spec, Z.shiftl_1_l by lia.
  rewrite Z.pow2_bits_eqb by lia. f_equal. apply Z.eqb_sym.
Qed.

(** ** Arrays *)

Lemma arr_get_Some (a : list Z) (i v : Z) :
  arr_get a i = Some v <-> 0 <= i /\ a !! Z.to_nat i = Some v.
Proof.
  unfold arr_get. split.
  - destruct (Z.leb_spec 0 i), (Z.ltb_spec i (Z.of_nat (length a)));
      simpl; intros ?; try discriminate. auto.
  - intros [Hi Hv]. pose proof (lookup_lt_Some _ _ _ Hv).
    destruct (Z.leb_spec 0 i), (Z.ltb_spec i (Z.of_nat (length a)));
      simpl; auto; lia.
Qed.

Lemma arr_get_in_range (a : list Z) (i : Z) :
  0 <= i < Z.of_nat (length a) -> exists v, arr_get a i = Some v.
Proof.
  intros Hi. destruct (lookup_lt_is_Some_2 a (Z.to_nat i)) as [v Hv]; [lia|].
  exists v. apply arr_get_Some. split; [lia|done].
Qed.

Lemma arr_set_in_range (a : list Z) (i v : Z) :
  0 <= i < Z.of_nat (length a) ->
  arr_set a i v = Some (<[Z.to_nat i := v]> a).
Proof.
  intros Hi. unfold arr_set.
  destruct (Z.leb_spec 0 i), (Z.ltb_spec i (Z.of_nat (length a)));
    simpl; auto; lia.
Qed.

Lemma pulse_at_testbit (ps : list Z) (k byte : Z) :
  arr_get ps (k / 8) = Some byte ->
  pulse_at ps k = Some (Z.testbit byte (k mod 8)).
Proof.
  intros H. unfold pulse_at. rewrite H. simpl.
  rewrite truthy_land_bit; [done|]. apply Z.mod_pos_bound. lia.
Qed.

(** Setting the bit of slot [c] leaves every other slot as it was. *)
Lemma pulse_at_set_bit (ps : list Z) (c k old : Z) :
  0 <= c -> 0 <= k < 8 * Z.of_nat (length ps) ->
  arr_get ps (c / 8) = Some old ->
  pulse_at (<[Z.to_nat (c / 8) := u8 (Z.lor old (Z.shiftl 1 (c mod 8)))]> ps) k
  = (fun v => v || (k =? c)) <$> pulse_at ps k.
Proof.
  intros Hc Hk Hold.
  apply arr_get_Some in Hold as [Hc8 Hold].
  pose proof (lookup_lt_Some _ _ _ Hold) as Hlt.
  assert (Hk8 : 0 <= k / 8 < Z.of_nat (length ps)).
  { split; [apply Z.div_pos; lia | apply Z.div_lt_upper_bound; lia]. }
  destruct (arr_get_in_range ps (k / 8) Hk8) as [byte Hbyte].
  rewrite (pulse_at_testbit ps k byte Hbyte). simpl.
  pose proof (Z.mod_pos_bound c 8 ltac:(lia)) as Hcm.
  pose proof (Z.mod_pos_bound k 8 ltac:(lia)) as Hkm.
  destruct (decide (k / 8 = c / 8)) as [Heq|Hne].
  - assert (byte = old).
    { apply arr_get_Some in Hbyte as [_ Hbyte]. rewrite Heq in Hbyte. congruence. }
    subst byte.
    erewrite pulse_at_testbit.
    2:{ apply arr_get_Some. split; [lia|]. rewrite Heq.
        apply list_lookup_insert_eq. lia. }
    rewrite set_bit_testbit by lia. do 2 f_equal.
    destruct (Z.eqb_spec (k mod 8) (c mod 8)), (Z.eqb_spec k c); try done.
    + exfalso. pose proof (Z.div_mod k 8 ltac:(lia)).
      pose proof (Z.div_mod c 8 ltac:(lia)). lia.
    + subst. done.
  - erewrite pulse_at_testbit.
    2:{ apply arr_get_Some. split; [lia|].
        rewrite list_lookup_insert_ne by lia.
        apply arr_get_Some in Hbyte as [_ Hbyte]. exact Hbyte. }
    do 2 f_equal. destruct (Z.eqb_spec k c); [subst; done|].
    symmetry. apply orb_false_r.
Qed.

(** ** The pulse-train builder *)

Lemma nth_replicate_false (n i : nat) : nth i (replicate n false) false = false.
Proof. revert i. induction n; intros [|i]; simpl; auto. Qed.

Lemma nth_app_mark (L : list bool) (n k : nat) :
  nth k (L ++ true :: replicate n false) false
  = nth k L false || Nat.eqb k (length L).
Proof.
  destruct (Nat.lt_trichotomy k (length L)) as [Hlt|[->|Hgt]].
  - rewrite app_nth1 by lia.
    replace (Nat.eqb k (length L)) with false; [by rewrite orb_false_r|].
    symmetry. apply Nat.eqb_neq. lia.
  - rewrite app_nth2, Nat.sub_diag, Nat.eqb_refl by lia. simpl.
    by rewrite orb_true_r.
  - rewrite app_nth2 by lia. rewrite (nth_overflow L) by lia.
    destruct (k - length L)%nat as [|j] eqn:Hj; [lia|]. simpl.
    rewrite nth_replicate_false. symmetry. apply Nat.eqb_neq. lia.
Qed.

Lemma spec_bit_slots_length (bit : bool) :
  Z.of_nat (length (spec_bit_slots bit)) = if bit then 4 else 2.
Proof. by destruct bit. Qed.

Lemma add_bit_Built (bit : bool) (b : Board) (L : list bool) :
  Built b L -> Z.of_nat (length L) + 4 <= 8 * Z.of_nat PULSES_CAPACITY ->
  exists b', add_bit bit b = Some b' /\ Built b' (L ++ spec_bit_slots bit).
Proof.
  intros (Hwf & Hcp & Hsl) Hroom. unfold wf_board in Hwf.
  unfold PULSES_CAPACITY in *. unfold add_bit. rewrite Hcp.
  set (c := Z.of_nat (length L)) in *.
  assert (Hc8 : 0 <= c / 8 < Z.of_nat (length (pulses (ir_state b)))).
  { rewrite Hwf. split; [apply Z.div_pos; lia | apply Z.div_lt_upper_bound; lia]. }
  destruct (arr_get_in_range _ _ Hc8) as [old Hold].
  rewrite Hold. simpl. rewrite arr_set_in_range by done. simpl.
  assert (Hu : forall d, 0 <= d <= 4 -> u8 (c + d) = c + d).
  { intros d Hd. unfold u8. apply Z.mod_small. lia. }
  destruct bit; (eexists; split; [reflexivity|]; split; [|split]).
  all: try (unfold wf_board; simpl; by rewrite length_insert).
  all: try (rewrite length_app, Nat2Z.inj_add, spec_bit_slots_length; fold c;
            simpl; rewrite (Hu 1) by lia).
  - replace (c + 1 + 3) with (c + 4) by lia. apply Hu. lia.
  - intros k Hk. unfold PULSES_CAPACITY in Hk. simpl.
    rewrite pulse_at_set_bit; [|lia|rewrite Hwf; lia|done].
    rewrite Hsl by lia. simpl. f_equal. unfold spec_bit_slots.
    rewrite nth_app_mark. f_equal.
    destruct (Z.eqb_spec k c), (Nat.eqb_spec (Z.to_nat k) (length L)); try done; lia.
  - replace (c + 1 + 1) with (c + 2) by lia. apply Hu. lia.
  - intros k Hk. unfold PULSES_CAPACITY in Hk. simpl.
    rewrite pulse_at_set_bit; [|lia|rewrite Hwf; lia|done].
    rewrite Hsl by lia. simpl. f_equal. unfold spec_bit_slots.
    rewrite nth_app_mark. f_equal.
    destruct (Z.eqb_spec k c), (Nat.eqb_spec (Z.to_nat k) (length L)); try done; lia.
Qed.

Lemma spec_bits_length (bits : list bool) :
  Z.of_nat (length (flat_map spec_bit_slots bits))
  = fold_right Z.add 0 (map (fun bit : bool => if bit then 4 else 2) bits).
Proof.
  induction bits as [|bit bits IH]; [done|].
  change (flat_map spec_bit_slots (bit :: bits))
    with (spec_bit_slots bit ++ flat_map spec_bit_slots bits).
  rewrite length_app, Nat2Z.inj_add, spec_bit_slots_length, IH. done.
Qed.

Lemma spec_bits_length_bounds (bits : list bool) :
  2 * Z.of_nat (length bits) <= Z.of_nat (length (flat_map spec_bit_slots bits))
  <= 4 * Z.of_nat (length bits).
Proof.
  rewrite spec_bits_length.
  induction bits as [|[] bits IH]; simpl length; simpl fold_right; lia.
Qed.

Lemma shifted_bits_byte (v : Z) : shifted_bits 8 v = byte_bits v.
Proof.
  unfold byte_bits. cbn [shifted_bits map seq].
  rewrite !shl1_testbit by lia. repeat (f_equal; try lia).
Qed.

Lemma send_byte_loop_Built (n : nat) :
  forall (v : Z) (b : Board) (L : list bool),
    Built b L ->
    Z.of_nat (length L) + 4 * Z.of_nat n <= 8 * Z.of_nat PULSES_CAPACITY ->
    exists b', send_byte_loop n v b = Some b' /\
               Built b' (L ++ flat_map spec_bit_slots (shifted_bits n v)).
Proof.
  induction n as [|n IH]; intros v b L HB Hroom.
  - exists b. simpl. by rewrite app_nil_r.
  - simpl. rewrite truthy_land_bit by lia.
    destruct (add_bit_Built (Z.testbit v 7) b L HB) as (b1 & -> & HB1); [lia|].
    simpl.
    destruct (IH (u8 (Z.shiftl v 1)) b1 _ HB1) as (b2 & -> & HB2).
    { rewrite length_app, Nat2Z.inj_add.
      pose proof (spec_bit_slots_length (Z.testbit v 7)).
      destruct (Z.testbit v 7); lia. }
    exists b2. split; [done|]. by rewrite <- app_assoc in HB2.
Qed.

Lemma spec_data_slots_cons (v : Z) (frame : list Z) :
  spec_data_slots (v :: frame)
  = flat_map spec_bit_slots (byte_bits v) ++ spec_data_slots frame.
Proof.
  unfold spec_data_slots, frame_bits.
  change (flat_map byte_bits (v :: frame))
    with (byte_bits v ++ flat_map byte_bits frame).
  apply flat_map_app.
Qed.

Lemma send_bytes_loop_S (n : nat) (i : Z) (data : list Z) (b : Board) :
  send_bytes_loop (S n) i data b
  = (v ← arr_get data i; b' ← send_byte_loop 8 v b;
     send_bytes_loop n (i + 1) data b').
Proof. reflexivity. Qed.

Lemma send_bytes_loop_Built (n : nat) :
  forall (i : nat) (data : list Z) (b : Board) (L : list bool),
    Built b L ->
    (i + n <= length data)%nat ->
    Z.of_nat (length L) + 32 * Z.of_nat n <= 8 * Z.of_nat PULSES_CAPACITY ->
    exists b', send_bytes_loop n (Z.of_nat i) data b = Some b' /\
               Built b' (L ++ spec_data_slots (take n (drop i data))).
Proof.
  induction n as [|n IH]; intros i data b L HB Hlen Hroom.
  - exists b. simpl. by rewrite app_nil_r.
  - destruct (lookup_lt_is_Some_2 data i) as [v Hv]; [lia|].
    rewrite send_bytes_loop_S.
    assert (Hget : arr_get data (Z.of_nat i) = Some v).
    { apply arr_get_Some. split; [lia|]. by rewrite Nat2Z.id. }
    rewrite Hget. cbn [mbind option_bind].
    destruct (send_byte_loop_Built 8 v b L HB) as (b1 & Hb1 & HB1); [lia|].
    rewrite shifted_bits_byte in HB1.
    rewrite Hb1. cbn [mbind option_bind].
    replace (Z.of_nat i + 1) with (Z.of_nat (S i)) by lia.
    destruct (IH (S i) data b1 _ HB1) as (b2 & -> & HB2); [lia| |].
    { rewrite length_app, Nat2Z.inj_add.
      pose proof (spec_bits_length_bounds (byte_bits v)) as Hb.
      unfold byte_bits in Hb at 2 4. rewrite length_map, length_seq in Hb. lia. }
    exists b2. split; [done|].
    rewrite (drop_S _ _ _ Hv). cbn [take].
    rewrite spec_data_slots_cons, app_assoc. exact HB2.
Qed.

Lemma slots_by_computation (ps : list Z) (L : list bool) :
  forallb (fun k => bool_decide (pulse_at ps (Z.of_nat k) = Some (nth k L false)))
          (seq 0 (8 * PULSES_CAPACITY)) = true ->
  forall k, 0 <= k < 8 * Z.of_nat PULSES_CAPACITY ->
    pulse_at ps k = Some (nth (Z.to_nat k) L false).
Proof.
  intros Hall k Hk. rewrite forallb_forall in Hall.
  specialize (Hall (Z.to_nat k)). rewrite Z2Nat.id in Hall by lia.
  eapply bool_decide_eq_true_1, Hall, in_seq. lia.
Qed.

Lemma zero_fill_all (ps : list Z) :
  length ps = PULSES_CAPACITY ->
  zero_fill PULSES_CAPACITY 0 ps = Some (replicate PULSES_CAPACITY 0).
Proof.
  unfold PULSES_CAPACITY. intros Hlen.
  do 29 (destruct ps as [|? ps]; [discriminate|]).
  destruct ps; [reflexivity|discriminate].
Qed.

Lemma init_start_Built (b : Board) :
  wf_board b ->
  exists b1 b2, init_buff b = Some b1 /\ add_start b1 = Some b2 /\
                Built b2 spec_start_slots.
Proof.
  intros Hwf. unfold init_buff.
  cbn [with_ir set_current_pulse set_current_sub_pulse ir_state pulses].
  rewrite (zero_fill_all _ Hwf). simpl.
  eexists. eexists. split; [reflexivity|]. split; [reflexivity|].
  split; [reflexivity|]. split; [reflexivity|].
  apply slots_by_computation. vm_compute. reflexivity.
Qed.

Lemma nth_app_spaces (L : list bool) (n k : nat) :
  nth k (L ++ replicate n false) false = nth k L false.
Proof.
  destruct (Nat.lt_ge_cases k (length L)).
  - by rewrite app_nth1.
  - rewrite app_nth2, nth_replicate_false, nth_overflow by lia. done.
Qed.

Lemma add_stop_Built (b : Board) (L : list bool) :
  Built b L -> Z.of_nat (length L) + 12 <= 8 * Z.of_nat PULSES_CAPACITY ->
  exists b', add_stop b = Some b' /\ Built b' (L ++ stop_slots).
Proof.
  intros HB Hroom. unfold add_stop.
  destruct (add_bit_Built true b L HB) as (b1 & -> & Hwf & Hcp & Hsl); [lia|].
  cbn [mbind option_bind]. eexists. split; [reflexivity|].
  replace (L ++ stop_slots)
    with ((L ++ spec_bit_slots true) ++ replicate 8 false)
    by (by rewrite <- app_assoc).
  rewrite length_app, Nat2Z.inj_add, spec_bit_slots_length in Hcp.
  unfold PULSES_CAPACITY in *.
  split; [exact Hwf|]. split.
  - simpl current_pulse. rewrite Hcp. unfold u8. rewrite Z.mod_small by lia.
    rewrite !length_app, !Nat2Z.inj_add, spec_bit_slots_length.
    rewrite length_replicate. lia.
  - intros k Hk. simpl pulses. rewrite nth_app_spaces. by apply Hsl.
Qed.

Lemma frame_bits_length (frame : list Z) :
  length (frame_bits frame) = (8 * length frame)%nat.
Proof.
  unfold frame_bits. induction frame as [|v frame IH]; [done|].
  change (flat_map byte_bits (v :: frame))
    with (byte_bits v ++ flat_map byte_bits frame).
  rewrite length_app, IH. unfold byte_bits.
  rewrite length_map, length_seq. simpl length. lia.
Qed.

Lemma pulse_train_length (frame : list Z) :
  Z.of_nat (length (pulse_train frame)) = slot_count frame.
Proof.
  unfold pulse_train, slot_count, data_slot_count, spec_data_slots.
  rewrite !length_app, !Nat2Z.inj_add, spec_bits_length.
  change (Z.of_nat (length spec_start_slots)) with 16.
  change (Z.of_nat (length stop_slots)) with 12. lia.
Qed.

Lemma slot_count_bounds (frame : list Z) :
  length frame = RAW_DATA_PACKET_SIZE -> 124 <= slot_count frame <= 220.
Proof.
  intros Hlen. unfold slot_count, data_slot_count.
  pose proof (spec_bits_length_bounds (frame_bits frame)) as Hb.
  rewrite spec_bits_length, frame_bits_length, Hlen in Hb.
  unfold RAW_DATA_PACKET_SIZE in Hb. lia.
Qed.

(** Reading back [length L] slots of a buffer that holds [L]. *)
Lemma slots_read_back (ps : list Z) (L : list bool) :
  (forall k, 0 <= k < 8 * Z.of_nat PULSES_CAPACITY ->
     pulse_at ps k = Some (nth (Z.to_nat k) L false)) ->
  Z.of_nat (length L) <= 8 * Z.of_nat PULSES_CAPACITY ->
  mapM (fun k => pulse_at ps (Z.of_nat k)) (seq 0 (length L)) = Some L.
Proof.
  intros Hsl Hlen. apply mapM_Some, Forall2_same_length_lookup.
  split; [by rewrite length_seq|].
  intros i k x Hk Hx. apply lookup_seq in Hk as [-> Hi]. simpl.
  rewrite Hsl, Nat2Z.id by lia. f_equal. by apply nth_lookup_Some.
Qed.

(** What [send_ir_data] leaves behind: the armed engine. *)
Lemma send_ir_data_armed (data : list Z) (repeat : Z) (b : Board) :
  wf_board b -> length data = RAW_DATA_PACKET_SIZE ->
  exists b',
    send_ir_data data repeat b = Some b' /\
    wf_board b' /\
    slots_of (ir_state b') = Some (pulse_train data) /\
    pulses_size (ir_state b') = slot_count data /\
    repeat_count (ir_state b') = u8 repeat /\
    current_pulse (ir_state b') = 0 /\
    current_sub_pulse (ir_state b') = 0 /\
    htim1_running b' = true.
Proof.
  intros Hwf Hlen. unfold send_ir_data.
  destruct (init_start_Built b Hwf) as (b1 & b2 & -> & Hb2 & HB2).
  cbn [mbind option_bind]. rewrite Hb2. cbn [mbind option_bind].
  destruct (send_bytes_loop_Built RAW_DATA_PACKET_SIZE 0 data b2 _ HB2)
    as (b3 & Hb3 & HB3); [lia|vm_compute; discriminate|].
  change (Z.of_nat 0) with 0 in Hb3. rewrite Hb3. cbn [mbind option_bind].
  rewrite drop_0, take_ge in HB3 by lia.
  assert (Hdata : Z.of_nat (length (spec_data_slots data)) <= 192).
  { pose proof (spec_bits_length_bounds (frame_bits data)) as Hb.
    rewrite frame_bits_length, Hlen in Hb. unfold RAW_DATA_PACKET_SIZE in Hb.
    unfold spec_data_slots. lia. }
  destruct (add_stop_Built b3 _ HB3) as (b4 & -> & Hwf4 & Hcp4 & Hsl4).
  { rewrite length_app, Nat2Z.inj_add. unfold PULSES_CAPACITY.
    change (Z.of_nat (length spec_start_slots)) with 16. lia. }
  cbn [mbind option_bind]. eexists. split; [reflexivity|].
  rewrite <- app_assoc in Hcp4, Hsl4. fold (pulse_train data) in Hcp4, Hsl4.
  pose proof (slot_count_bounds data Hlen) as Hcnt.
  rewrite pulse_train_length in Hcp4.
  repeat split; try done.
  - unfold slots_of. simpl pulses_size. simpl pulses. rewrite Hcp4.
    rewrite <- pulse_train_length, Nat2Z.id.
    apply slots_read_back; [done|].
    rewrite pulse_train_length. unfold PULSES_CAPACITY. lia.
Qed.

(** ** The decoder *)

Lemma count_spaces_run (k : nat) (rest : list bool) :
  count_spaces (replicate k false ++ true :: rest) = (k, true :: rest).
Proof. induction k as [|k IH]; simpl; [done|]. by rewrite IH. Qed.

Lemma spec_bits_mark_first (bits : list bool) (rest : list bool) :
  exists tl, flat_map spec_bit_slots bits ++ true :: rest = true :: tl.
Proof. destruct bits as [|bit bits]; simpl; eauto. Qed.

Lemma decode_bits_train (bits : list bool) (rest : list bool) :
  decode_bits (length bits) (flat_map spec_bit_slots bits ++ true :: rest)
  = Some bits.
Proof.
  induction bits as [|bit bits IH]; [done|].
  destruct (spec_bits_mark_first bits rest) as [tl Htl].
  cbn [length flat_map spec_bit_slots decode_bits app].
  rewrite <- app_assoc, Htl, count_spaces_run, <- Htl.
  destruct bit; cbn [Nat.eqb mbind option_bind]; by rewrite IH.
Qed.

Lemma bits_to_byte_bits (v : Z) : is_byte v -> bits_to_byte (byte_bits v) = v.
Proof.
  intros Hv.
  assert (Hall : forallb (fun n => bits_to_byte (byte_bits (Z.of_nat n)) =? Z.of_nat n)
                         (seq 0 256) = true) by (vm_compute; reflexivity).
  rewrite forallb_forall in Hall. specialize (Hall (Z.to_nat v)).
  rewrite Z2Nat.id in Hall by (unfold is_byte in Hv; lia).
  apply Z.eqb_eq, Hall, in_seq. unfold is_byte in Hv. lia.
Qed.

Lemma bits_to_bytes_frame (frame : list Z) :
  Forall is_byte frame ->
  bits_to_bytes (length frame) (frame_bits frame) = frame.
Proof.
  induction 1 as [|v frame Hv _ IH]; [done|].
  unfold frame_bits.
  change (flat_map byte_bits (v :: frame)) with (byte_bits v ++ frame_bits frame).
  cbn [length bits_to_bytes].
  assert (Hl : length (byte_bits v) = 8%nat) by done.
  rewrite take_app_length', drop_app_length' by done.
  by rewrite bits_to_byte_bits, IH.
Qed.

Lemma decode_pulse_train (frame : list Z) :
  length frame = RAW_DATA_PACKET_SIZE -> Forall is_byte frame ->
  decode_slots (pulse_train frame) = Some frame.
Proof.
  intros Hlen Hbytes. unfold decode_slots, pulse_train.
  change (drop 16 (spec_start_slots ++ spec_data_slots frame ++ stop_slots))
    with (spec_data_slots frame ++ stop_slots).
  pose proof (frame_bits_length frame) as Hbits. rewrite Hlen in Hbits.
  change (8 * RAW_DATA_PACKET_SIZE)%nat with 48%nat in Hbits.
  rewrite <- Hbits. unfold spec_data_slots, stop_slots.
  rewrite decode_bits_train. cbn [mbind option_bind].
  change 6%nat with RAW_DATA_PACKET_SIZE. rewrite <- Hlen.
  by rewrite bits_to_bytes_frame.
Qed.

(** ** The frame builder *)

Lemma byte_xor_complement (v : Z) :
  is_byte v -> Z.lxor v (u8 (Z.lnot v)) = 0xFF.
Proof.
  intros Hv. apply Z.bits_inj'. intros n Hn.
  rewrite Z.lxor_spec. change 0xFF with (Z.ones 8).
  destruct (Z.lt_ge_cases n 8).
  - rewrite u8_testbit_low, Z.lnot_spec, Z.ones_spec_low by lia.
    by destruct (Z.testbit v n).
  - rewrite Z.ones_spec_high by lia.
    rewrite <- (Z.mod_small v (2 ^ 8)) by (unfold is_byte in Hv; lia).
    unfold u8. change 256 with (2 ^ 8).
    by rewrite !Z.mod_pow2_bits_high by lia.
Qed.

(** ** The transmission engine *)

Lemma run_snoc (n : nat) (b : Board) :
  run (S n) b = run n b ≫= TIM1_IRQ.
Proof.
  revert b. induction n as [|n IH]; intros b.
  - simpl. by destruct (TIM1_IRQ b).
  - change (run (S (S n)) b) with (TIM1_IRQ b ≫= run (S n)).
    change (run (S n) b) with (TIM1_IRQ b ≫= run n).
    destruct (TIM1_IRQ b) as [b1|]; [|done]. simpl mbind at 1 3.
    cbn [mbind option_bind]. apply IH.
Qed.

Section Engine.
Variables (ps : list Z) (size reps : Z).
Hypothesis Hsize : 1 <= size <= 8 * Z.of_nat (length ps).
Hypothesis Hsize8 : size <= 255.
Hypothesis Hreps : 1 <= reps <= 255.

Lemma pulse_at_playing (p : Z) :
  0 <= p < size -> exists v, pulse_at ps p = Some v.
Proof.
  intros Hp. unfold pulse_at.
  destruct (arr_get_in_range ps (p / 8)) as [byte ->]; [|simpl; eauto].
  split; [apply Z.div_pos; lia | apply Z.div_lt_upper_bound; lia].
Qed.

(** Inside the window of a slot: the level follows the slot value and the
    parity of the sub-tick, and the sub-tick counter advances. *)
Lemma tick_in_window (r p s : Z) (b : Board) (v : bool) :
  Playing ps size reps r p s b -> pulse_at ps p = Some v ->
  0 <= s < SUB_PULSES_PER_PULSE ->
  exists b', TIM1_IRQ b = Some b' /\ Playing ps size reps r p (s + 1) b' /\
    IR_LED b' = if Z.even s && v then GPIO_PIN_RESET else GPIO_PIN_SET.
Proof.
  intros (Hps & Hsz & Hrc & Hcp & Hsub & Hrun) Hv Hs.
  unfold SUB_PULSES_PER_PULSE in Hs.
  unfold TIM1_IRQ, HAL_TIM_PeriodElapsedCallback. rewrite Hrun, Hps, Hcp, Hv, Hsub.
  cbn [mbind option_bind]. unfold SUB_PULSES_PER_PULSE.
  destruct (Z.ltb_spec s 42); [|lia].
  assert (Hpar : negb (truthy (s mod 2)) = Z.even s).
  { unfold truthy. rewrite negb_involutive, Zeven_mod. done. }
  rewrite Hpar. eexists. split; [reflexivity|].
  assert (Hu : u8 (s + 1) = s + 1) by (unfold u8; apply Z.mod_small; lia).
  destruct (Z.even s && v); (split; [repeat split; simpl; auto|reflexivity]).
Qed.

(** The tick after the window: next slot, next pass, or the end. *)
Lemma tick_after_window (r p : Z) (b : Board) :
  Playing ps size reps r p SUB_PULSES_PER_PULSE b ->
  0 <= r < reps -> 0 <= p < size ->
  exists b', TIM1_IRQ b = Some b' /\
    if p + 1 <? size then Playing ps size reps r (p + 1) 0 b'
    else if r + 1 <? reps then Playing ps size reps (r + 1) 0 0 b'
    else Idle ps size b' /\ current_pulse (ir_state b') = size.
Proof.
  intros (Hps & Hsz & Hrc & Hcp & Hsub & Hrun) Hr Hp.
  destruct (pulse_at_playing p Hp) as [v Hv].
  unfold TIM1_IRQ, HAL_TIM_PeriodElapsedCallback. rewrite Hrun, Hps, Hcp, Hv, Hsub.
  cbn [mbind option_bind]. rewrite Z.ltb_irrefl.
  cbn [with_ir ir_state pulses_size current_pulse set_current_pulse
       set_current_sub_pulse set_repeat_count repeat_count].
  rewrite Hsz, Hrc.
  assert (Hu : u8 (p + 1) = p + 1) by (unfold u8; apply Z.mod_small; lia).
  assert (Hd : u8 (reps - r - 1) = reps - r - 1)
    by (unfold u8; apply Z.mod_small; lia).
  rewrite Hu, Hd.
  destruct (Z.ltb_spec (p + 1) size), (Z.leb_spec size (p + 1)); try lia.
  - eexists. split; [reflexivity|]. repeat split; simpl; auto.
  - unfold truthy.
    destruct (Z.ltb_spec (r + 1) reps), (Z.eqb_spec (reps - r - 1) 0);
      try lia; simpl negb; cbv iota.
    + eexists. split; [reflexivity|]. repeat split; simpl; auto. lia.
    + eexists. split; [reflexivity|]. repeat split; simpl; auto. lia.
Qed.

Lemma tick_index_0 (r p s : Z) :
  0 <= r -> 0 <= p -> 0 <= s -> tick_index size r p s = 0 ->
  r = 0 /\ p = 0 /\ s = 0.
Proof. unfold tick_index, TICKS_PER_SLOT, SUB_PULSES_PER_PULSE. nia. Qed.

(** Tick by tick, the engine is where [tick_index] says. *)
Lemma run_position (b0 : Board) :
  Playing ps size reps 0 0 0 b0 ->
  forall (k : nat) (r p s : Z),
    0 <= r < reps -> 0 <= p < size -> 0 <= s <= SUB_PULSES_PER_PULSE ->
    Z.of_nat k = tick_index size r p s ->
    exists b, run k b0 = Some b /\ Playing ps size reps r p s b.
Proof.
  intros H0. induction k as [|k IH]; intros r p s Hr Hp Hs Hk.
  - symmetry in Hk. apply tick_index_0 in Hk as (-> & -> & ->); try lia.
    exists b0. done.
  - rewrite run_snoc.
    unfold tick_index, TICKS_PER_SLOT, SUB_PULSES_PER_PULSE in *.
    destruct (decide (0 < s)) as [Hs0|Hs0].
    { destruct (IH r p (s - 1)) as (b & -> & Hb); try lia.
      destruct (pulse_at_playing p Hp) as [v Hv].
      destruct (tick_in_window r p (s - 1) b v Hb Hv) as (b' & Hb' & HP & _);
        [unfold SUB_PULSES_PER_PULSE; lia|].
      exists b'. replace (s - 1 + 1) with s in HP by lia. done. }
    assert (s = 0) as -> by lia.
    destruct (decide (0 < p)) as [Hp0|Hp0].
    { destruct (IH r (p - 1) 42) as (b & -> & Hb); try lia.
      destruct (tick_after_window r (p - 1) b Hb) as (b' & Hb' & HP); try lia.
      exists b'. replace (p - 1 + 1) with p in HP by lia.
      destruct (Z.ltb_spec p size); [done|lia]. }
    assert (p = 0) as -> by lia.
    destruct (decide (0 < r)) as [Hr0|Hr0]; [|exfalso; nia].
    destruct (IH (r - 1) (size - 1) 42) as (b & -> & Hb); try lia.
    destruct (tick_after_window (r - 1) (size - 1) b Hb) as (b' & Hb' & HP);
      try lia.
    exists b'. replace (size - 1 + 1) with size in HP by lia.
    replace (r - 1 + 1) with r in HP by lia.
    rewrite Z.ltb_irrefl in HP.
    destruct (Z.ltb_spec r reps); [done|lia].
Qed.

(** After the last tick of the last pass the engine is idle. *)
Lemma run_completes (b0 : Board) :
  Playing ps size reps 0 0 0 b0 ->
  exists b, run (Z.to_nat (TICKS_PER_SLOT * size * reps)) b0 = Some b /\
            Idle ps size b /\ current_pulse (ir_state b) = size.
Proof.
  intros H0.
  replace (Z.to_nat (TICKS_PER_SLOT * size * reps))
    with (S (Z.to_nat (tick_index size (reps - 1) (size - 1) SUB_PULSES_PER_PULSE))).
  2:{ unfold tick_index, TICKS_PER_SLOT, SUB_PULSES_PER_PULSE. nia. }
  rewrite run_snoc.
  destruct (run_position b0 H0
              (Z.to_nat (tick_index size (reps - 1) (size - 1) SUB_PULSES_PER_PULSE))
              (reps - 1) (size - 1) SUB_PULSES_PER_PULSE)
    as (b & -> & Hb); try (unfold SUB_PULSES_PER_PULSE; lia).
  { rewrite Z2Nat.id; [done|].
    unfold tick_index, TICKS_PER_SLOT, SUB_PULSES_PER_PULSE. nia. }
  destruct (tick_after_window (reps - 1) (size - 1) b Hb) as (b' & Hb' & HP);
    try lia.
  exists b'. replace (size - 1 + 1) with size in HP by lia.
  replace (reps - 1 + 1) with reps in HP by lia.
  rewrite !Z.ltb_irrefl in HP. done.
Qed.

(** A space slot: every sub-tick of the window writes [GPIO_PIN_SET]. *)
Lemma space_slot_level (r p s : Z) (b : Board) :
  Playing ps size reps r p s b -> pulse_at ps p = Some false ->
  0 <= s < SUB_PULSES_PER_PULSE ->
  exists b', TIM1_IRQ b = Some b' /\ IR_LED b' = GPIO_PIN_SET.
Proof.
  intros HP Hv Hs.
  destruct (tick_in_window r p s b false HP Hv Hs) as (b' & Hb' & _ & Hled).
  exists b'. split; [done|]. by rewrite andb_false_r in Hled.
Qed.
End Engine.

Lemma run_add (n m : nat) (b : Board) :
  run (n + m) b = run n b ≫= run m.
Proof.
  revert b. induction n as [|n IH]; intros b; [done|].
  cbn [Nat.add run]. destruct (TIM1_IRQ b) as [b1|]; [|done].
  cbn [mbind option_bind]. apply IH.
Qed.

Lemma run_stopped (n : nat) (b : Board) :
  htim1_running b = false -> run n b = Some b.
Proof.
  intros Hstop. induction n as [|n IH]; [done|].
  cbn [run]. unfold TIM1_IRQ. rewrite Hstop. exact IH.
Qed.

(** ** The packet encoder *)

Lemma MideaMode_eqb_eq (a b : MideaMode) : MideaMode_eqb a b = true <-> a = b.
Proof. destruct a, b; vm_compute; split; congruence. Qed.

Lemma nib_range (z : Z) : 0 <= nib z < 16.
Proof. unfold nib. apply Z.mod_pos_bound. lia. Qed.

(** A fan level outside [0, 3] is used as an index all the same. *)
Lemma pack_data_fan_level_out_of_range (ir : MideaIR) :
  enabled ir = true -> mode ir <> MODE_AUTO ->
  ~ (0 <= fan_level ir < 4) -> pack_data ir = None.
Proof.
  intros Hen Hmode Hfan. unfold pack_data. rewrite Hen.
  destruct (MideaMode_eqb (mode ir) MODE_AUTO) eqn:Hm.
  { apply MideaMode_eqb_eq in Hm. done. }
  unfold arr_get. simpl length.
  destruct (Z.leb_spec 0 (fan_level ir)), (Z.ltb_spec (fan_level ir) (Z.of_nat 4));
    simpl; try done; lia.
Qed.

(** With the fan lookup in range the encoder succeeds, every field is a
    nibble, and the temperature is encoded as the specification says. *)
Lemma pack_data_in_range (ir : MideaIR) :
  enabled ir = false \/ mode ir = MODE_AUTO \/ 0 <= fan_level ir < 4 ->
  exists p, pack_data ir = Some p /\
    magic p = 0xB2 /\
    0 <= state p < 16 /\ 0 <= fan p < 16 /\
    0 <= command p < 16 /\ 0 <= temp p < 16 /\
    (enabled ir = true -> mode ir <> MODE_FAN ->
       (17 <= temperature ir <= 30 ->
          arr_get temperature_table (temperature ir - 17) = Some (temp p)) /\
       (~ 17 <= temperature ir <= 30 -> temp p = 4)).
Proof.
  intros Hok. unfold pack_data. destruct (enabled ir) eqn:Hen.
  2:{ eexists. split; [reflexivity|]. vm_compute. repeat split; congruence. }
  assert (Hfan : exists f,
    (if MideaMode_eqb (mode ir) MODE_AUTO then Some (nib 1)
     else nib <$> arr_get fan_table (fan_level ir)) = Some (nib f)).
  { destruct (MideaMode_eqb (mode ir) MODE_AUTO) eqn:Hm; [by exists 1|].
    destruct Hok as [?|[Hauto|Hfl]]; [done| |].
    - apply MideaMode_eqb_eq in Hauto. congruence.
    - destruct (arr_get_in_range fan_table (fan_level ir)) as [f ->];
        [simpl; lia|]. by exists f. }
  destruct Hfan as [f ->]. cbn [mbind option_bind].
  assert (Htemp : exists t,
    (if MideaMode_eqb (mode ir) MODE_FAN then Some (nib 14)
     else if (TEMP_LOW <=? temperature ir) && (temperature ir <=? TEMP_HIGH)
          then nib <$> arr_get temperature_table (temperature ir - TEMP_LOW)
          else Some (nib 4)) = Some (nib t) /\
    (mode ir <> MODE_FAN ->
       (17 <= temperature ir <= 30 ->
          arr_get temperature_table (temperature ir - 17) = Some (nib t)) /\
       (~ 17 <= temperature ir <= 30 -> nib t = 4))).
  { destruct (MideaMode_eqb (mode ir) MODE_FAN) eqn:Hm.
    { apply MideaMode_eqb_eq in Hm. by exists 14. }
    unfold TEMP_LOW, TEMP_HIGH.
    destruct (Z.leb_spec 17 (temperature ir)), (Z.leb_spec (temperature ir) 30);
      cbn [andb]; try (exists 4; split; [done|]; intros _; split; [lia|done]).
    destruct (arr_get_in_range temperature_table (temperature ir - 17))
      as [t Ht]; [simpl; lia|].
    assert (Hnib : nib t = t).
    { apply arr_get_Some in Ht as [_ Ht]. apply list_elem_of_lookup_2 in Ht.
      unfold temperature_table in Ht.
      rewrite !elem_of_cons, elem_of_nil in Ht.
      repeat (destruct Ht as [->|Ht]; [done|]). done. }
    exists t. rewrite Ht. simpl. rewrite Hnib. split; [done|].
    intros _. split; [done|lia]. }
  destruct Htemp as (t & -> & Ht). cbn [mbind option_bind].
  eexists. split; [reflexivity|]. cbn [magic state fan command temp].
  repeat split; try apply nib_range; try done; by apply Ht.
Qed.

(** * The claims *)

(** ** Pulse-train builder *)

(** C1, as stated, fails: for the frame of the deflector command the builder
    records 172 slots, while 16 start slots, the data slots and 9 stop slots
    make 169. *)
Lemma slot_count_nine_stop_slots_fails :
  exists b', send_ir_data deflector_frame 1 reset_board = Some b' /\
    pulses_size (ir_state b') = 172 /\
    spec_slot_count deflector_frame = 169 /\
    pulses_size (ir_state b') <> spec_slot_count deflector_frame.
Proof.
  eexists. split; [vm_compute; reflexivity|].
  split; [reflexivity|]. split; [reflexivity|]. vm_compute. discriminate.
Qed.

(** C1, amended: for every 6-byte frame, [pulses_size] is 16 start slots,
    plus 2 slots for each 0-bit and 4 slots for each 1-bit of the 48 data
    bits, plus the stop marker: one stop bit, encoded like a data bit (a mark
    slot followed by its space slots, 2 or 4 slots in all), and 8 more space
    slots after it.  Which value the stop bit has is left open here: the
    header comment of the file announces a "0" stop bit. *)
Theorem pulses_size_slot_count (frame : list Z) (repeat : Z) (b : Board) :
  wf_board b -> length frame = RAW_DATA_PACKET_SIZE ->
  exists b' (stop_bit : bool),
    send_ir_data frame repeat b = Some b' /\
    pulses_size (ir_state b')
    = 16 + data_slot_count frame + (if stop_bit then 4 else 2) + 8 /\
    length (frame_bits frame) = 48%nat /\
    exists body,
      slots_of (ir_state b')
      = Some (body ++ spec_bit_slots stop_bit ++ replicate 8 false) /\
      Z.of_nat (length body) = 16 + data_slot_count frame.
Proof.
  intros Hwf Hlen.
  destruct (send_ir_data_armed frame repeat b Hwf Hlen)
    as (b' & Hsend & _ & Hslots & Hsize & _).
  exists b', true. split; [done|]. split; [rewrite Hsize; unfold slot_count; lia|].
  split; [by rewrite frame_bits_length, Hlen|].
  exists (spec_start_slots ++ spec_data_slots frame).
  split; [by rewrite <- app_assoc|].
  rewrite length_app, Nat2Z.inj_add. unfold spec_data_slots, data_slot_count.
  by rewrite spec_bits_length.
Qed.

Lemma pulses_size_slot_count_witness :
  wf_board reset_board /\ length deflector_frame = RAW_DATA_PACKET_SIZE /\
  exists b' (stop_bit : bool),
    send_ir_data deflector_frame 1 reset_board = Some b' /\
    pulses_size (ir_state b')
    = 16 + data_slot_count deflector_frame + (if stop_bit then 4 else 2) + 8 /\
    length (frame_bits deflector_frame) = 48%nat /\
    exists body,
      slots_of (ir_state b')
      = Some (body ++ spec_bit_slots stop_bit ++ replicate 8 false) /\
      Z.of_nat (length body) = 16 + data_slot_count deflector_frame.
Proof.
  split; [reflexivity|]. split; [reflexivity|].
  apply (pulses_size_slot_count deflector_frame 1 reset_board); reflexivity.
Defined.

(** C5: for every 6-byte frame the slots the builder leaves in the buffer are
    8 marks and 8 spaces, then, for each byte in order and each of its bits
    from bit 7 down to bit 0, a mark followed by 1 space for a 0-bit and by 3
    spaces for a 1-bit; the stop marker follows. *)
Theorem pulse_train_start_then_bits (frame : list Z) (repeat : Z) (b : Board) :
  wf_board b -> length frame = RAW_DATA_PACKET_SIZE ->
  exists b', send_ir_data frame repeat b = Some b' /\
    slots_of (ir_state b')
    = Some (replicate 8 true ++ replicate 8 false
            ++ flat_map (fun bit : bool =>
                           true :: replicate (if bit then 3 else 1) false)
                        (flat_map byte_bits frame)
            ++ stop_slots) /\
    forall v, byte_bits v
      = [ Z.testbit v 7; Z.testbit v 6; Z.testbit v 5; Z.testbit v 4;
          Z.testbit v 3; Z.testbit v 2; Z.testbit v 1; Z.testbit v 0 ].
Proof.
  intros Hwf Hlen.
  destruct (send_ir_data_armed frame repeat b Hwf Hlen)
    as (b' & Hsend & _ & Hslots & _).
  exists b'. split; [done|]. split; [|done].
  rewrite Hslots. unfold pulse_train, spec_start_slots.
  by rewrite <- app_assoc.
Qed.

Lemma pulse_train_start_then_bits_witness :
  wf_board reset_board /\ length deflector_frame = RAW_DATA_PACKET_SIZE /\
  exists b', send_ir_data deflector_frame 1 reset_board = Some b' /\
    slots_of (ir_state b')
    = Some (replicate 8 true ++ replicate 8 false
            ++ flat_map (fun bit : bool =>
                           true :: replicate (if bit then 3 else 1) false)
                        (flat_map byte_bits deflector_frame)
            ++ stop_slots) /\
    forall v, byte_bits v
      = [ Z.testbit v 7; Z.testbit v 6; Z.testbit v 5; Z.testbit v 4;
          Z.testbit v 3; Z.testbit v 2; Z.testbit v 1; Z.testbit v 0 ].
Proof.
  split; [reflexivity|]. split; [reflexivity|].
  apply (pulse_train_start_then_bits deflector_frame 1 reset_board); reflexivity.
Defined.

(** C7: for every frame of 6 bytes, decoding the slots the builder produced
    (skip the 16 start slots, then 48 times read a mark and count the spaces
    after it, 1 space for a 0 and 3 spaces for a 1) gives the frame back. *)
Theorem decode_after_build (frame : list Z) (repeat : Z) (b : Board) :
  wf_board b -> length frame = RAW_DATA_PACKET_SIZE -> Forall is_byte frame ->
  exists b' slots, send_ir_data frame repeat b = Some b' /\
    slots_of (ir_state b') = Some slots /\
    decode_slots slots = Some frame.
Proof.
  intros Hwf Hlen Hbytes.
  destruct (send_ir_data_armed frame repeat b Hwf Hlen)
    as (b' & Hsend & _ & Hslots & _).
  exists b', (pulse_train frame). split; [done|]. split; [done|].
  by apply decode_pulse_train.
Qed.

Lemma decode_after_build_witness :
  wf_board reset_board /\ length deflector_frame = RAW_DATA_PACKET_SIZE /\
  Forall is_byte deflector_frame /\
  exists b' slots, send_ir_data deflector_frame 1 reset_board = Some b' /\
    slots_of (ir_state b') = Some slots /\
    decode_slots slots = Some deflector_frame.
Proof.
  assert (Hb : Forall is_byte deflector_frame).
  { unfold deflector_frame, is_byte. repeat constructor; lia. }
  split; [reflexivity|]. split; [reflexivity|]. split; [exact Hb|].
  apply (decode_after_build deflector_frame 1 reset_board);
    [reflexivity|reflexivity|exact Hb].
Defined.

(** ** Frame builder *)

(** C4: for every packet of 3 bytes the frame builder returns 6 bytes, each
    packet byte followed by its complement, in the order of the packet; for
    each even index [i] of the frame, [frame[i] xor frame[i+1] = 0xFF]. *)
Theorem add_complementary_bytes_frame (packet : list Z) :
  length packet = 3%nat -> Forall is_byte packet ->
  exists frame, add_complementary_bytes packet = Some frame /\
    length frame = RAW_DATA_PACKET_SIZE /\
    (forall (i : nat) (x : Z), packet !! i = Some x ->
       frame !! (2 * i)%nat = Some x /\
       frame !! (2 * i + 1)%nat = Some (u8 (Z.lnot x))) /\
    (forall (i : nat) (x y : Z), i = 0%nat \/ i = 2%nat \/ i = 4%nat ->
       frame !! i = Some x -> frame !! (i + 1)%nat = Some y ->
       Z.lxor x y = 0xFF).
Proof.
  intros Hlen Hbytes.
  destruct packet as [|x0 [|x1 [|x2 [|]]]]; try discriminate.
  apply Forall_cons in Hbytes as [H0 Hbytes].
  apply Forall_cons in Hbytes as [H1 Hbytes].
  apply Forall_cons in Hbytes as [H2 _].
  eexists. split; [reflexivity|]. split; [reflexivity|]. split.
  - intros [|[|[|i]]] x Hx; simpl in Hx; simplify_eq; done.
  - intros i x y [-> | [-> | ->]] Hx Hy; simpl in Hx, Hy; simplify_eq;
      by apply byte_xor_complement.
Qed.

Lemma add_complementary_bytes_frame_witness :
  length sample_packet = 3%nat /\ Forall is_byte sample_packet /\
  exists frame, add_complementary_bytes sample_packet = Some frame /\
    length frame = RAW_DATA_PACKET_SIZE /\
    (forall (i : nat) (x : Z), sample_packet !! i = Some x ->
       frame !! (2 * i)%nat = Some x /\
       frame !! (2 * i + 1)%nat = Some (u8 (Z.lnot x))) /\
    (forall (i : nat) (x y : Z), i = 0%nat \/ i = 2%nat \/ i = 4%nat ->
       frame !! i = Some x -> frame !! (i + 1)%nat = Some y ->
       Z.lxor x y = 0xFF).
Proof.
  assert (Hb : Forall is_byte sample_packet).
  { unfold sample_packet, is_byte. repeat constructor; lia. }
  split; [reflexivity|]. split; [exact Hb|].
  apply (add_complementary_bytes_frame sample_packet); [reflexivity|exact Hb].
Defined.

(** ** Packet encoder *)

(** C8: two states that are both switched off are encoded to the same packet,
    the fixed off packet: magic 0xB2, fan 0b0111, state 0b1011, command
    0b0000, temp 0b1110, whatever their mode, fan level and temperature. *)
Theorem pack_data_disabled (ir1 ir2 : MideaIR) :
  enabled ir1 = false -> enabled ir2 = false ->
  pack_data ir1 = pack_data ir2 /\
  pack_data ir1
  = Some {| magic := 0xB2; state := 11; fan := 7; command := 0; temp := 14 |}.
Proof.
  intros H1 H2. unfold pack_data. rewrite H1, H2. split; reflexivity.
Qed.

Lemma pack_data_disabled_witness :
  enabled ir_off_a = false /\ enabled ir_off_b = false /\
  pack_data ir_off_a = pack_data ir_off_b /\
  pack_data ir_off_a
  = Some {| magic := 0xB2; state := 11; fan := 7; command := 0; temp := 14 |}.
Proof.
  split; [reflexivity|]. split; [reflexivity|].
  apply (pack_data_disabled ir_off_a ir_off_b); reflexivity.
Defined.

(** C3: the encoder is not total.  With the state switched on, mode Cool and
    fan level 4 it reads [fan_table[4]], one element past the end of the
    table of 4 entries; the temperature index, by contrast, is checked and an
    out-of-range temperature (here 99) is encoded as the nibble 0b0100. *)
Theorem pack_data_fan_table_overrun :
  arr_get fan_table (fan_level ir_fan_level_4) = None /\
  pack_data ir_fan_level_4 = None /\
  pack_data (mkMideaIR 99 3 MODE_COOL true)
  = Some {| magic := 0xB2; state := 15; fan := 3; command := 0; temp := 4 |}.
Proof. repeat split. Qed.

(** ** Entry points *)






(** ** Transmission engine *)

(** C6: an engine armed with [size] slots, [1 <= size], and [reps] repeats,
    [1 <= reps], passes through every sub-tick of every slot of every pass:
    tick number [43 * (size * r + p) + s] finds it in pass [r] at slot [p] and
    sub-tick [s], with [reps - r] repeats left, so [repeat_count] goes down by
    one per pass of [size] slots; inside the window of 42 sub-ticks the next
    tick writes the level that slot [p] of the unchanged buffer and the parity
    of [s] call for.  After exactly [43 * size * reps] ticks [repeat_count] is
    0 and the timer is stopped; later ticks change nothing.  The last step,
    however, does not leave the line at the level it had through every space
    slot ([GPIO_PIN_SET]): it writes [GPIO_PIN_RESET]. *)
Theorem engine_replays_then_stops (b0 : Board) (size reps : Z) :
  wf_board b0 ->
  1 <= size <= 8 * Z.of_nat PULSES_CAPACITY -> 1 <= reps <= 255 ->
  pulses_size (ir_state b0) = size ->
  repeat_count (ir_state b0) = reps ->
  current_pulse (ir_state b0) = 0 ->
  current_sub_pulse (ir_state b0) = 0 ->
  htim1_running b0 = true ->
  (forall r p s, 0 <= r < reps -> 0 <= p < size -> 0 <= s <= 42 ->
     exists b, run (Z.to_nat (43 * (size * r + p) + s)) b0 = Some b /\
       pulses (ir_state b) = pulses (ir_state b0) /\
       pulses_size (ir_state b) = size /\
       repeat_count (ir_state b) = reps - r /\
       current_pulse (ir_state b) = p /\
       current_sub_pulse (ir_state b) = s /\
       htim1_running b = true /\
       (s < 42 ->
        exists v b1, pulse_at (pulses (ir_state b0)) p = Some v /\
          TIM1_IRQ b = Some b1 /\
          IR_LED b1 = if Z.even s && v then GPIO_PIN_RESET else GPIO_PIN_SET)) /\
  exists b, run (Z.to_nat (43 * size * reps)) b0 = Some b /\
    pulses (ir_state b) = pulses (ir_state b0) /\
    repeat_count (ir_state b) = 0 /\
    htim1_running b = false /\
    IR_LED b = GPIO_PIN_RESET /\
    (forall n, run (Z.to_nat (43 * size * reps) + n) b0 = Some b) /\
    (forall r p s, 0 <= r < reps -> 0 <= p < size -> 0 <= s < 42 ->
       pulse_at (pulses (ir_state b0)) p = Some false ->
       exists b1, run (S (Z.to_nat (43 * (size * r + p) + s))) b0 = Some b1 /\
         IR_LED b1 = GPIO_PIN_SET /\ IR_LED b1 <> IR_LED b).
Proof.
  intros Hwf Hsize Hreps Hsz Hrc Hcp Hsub Hrun.
  unfold wf_board in Hwf.
  assert (Hlen : 1 <= size <= 8 * Z.of_nat (length (pulses (ir_state b0))))
    by (by rewrite Hwf).
  assert (Hsize8 : size <= 255) by (unfold PULSES_CAPACITY in Hsize; lia).
  assert (H0 : Playing (pulses (ir_state b0)) size reps 0 0 0 b0).
  { repeat split; try done. lia. }
  split.
  - intros r p s Hr Hp Hs.
    destruct (run_position (pulses (ir_state b0)) size reps Hlen Hsize8 Hreps
                b0 H0 (Z.to_nat (43 * (size * r + p) + s)) r p s)
      as (b & Hb & HP); try done.
    { rewrite Z2Nat.id by nia. reflexivity. }
    exists b. split; [done|].
    destruct HP as (HP1 & HP2 & HP3 & HP4 & HP5 & HP6).
    repeat (split; [done|]). intros Hs42.
    destruct (pulse_at_playing (pulses (ir_state b0)) size Hlen p Hp) as [v Hv].
    destruct (tick_in_window (pulses (ir_state b0)) size reps r p s b v)
      as (b1 & Hb1 & _ & Hled); try done.
    { unfold SUB_PULSES_PER_PULSE. lia. }
    exists v, b1. done.
  - destruct (run_completes (pulses (ir_state b0)) size reps Hlen Hsize8 Hreps
                b0 H0) as (b & Hb & (Hps & _ & Hrc' & Hstop & Hled) & _).
    change (TICKS_PER_SLOT * size * reps) with (43 * size * reps) in Hb.
    exists b. repeat (split; [done|]). split.
    + intros n. rewrite run_add, Hb. cbn [mbind option_bind].
      by apply run_stopped.
    + intros r p s Hr Hp Hs Hspace.
      destruct (run_position (pulses (ir_state b0)) size reps Hlen Hsize8 Hreps
                  b0 H0 (Z.to_nat (43 * (size * r + p) + s)) r p s)
        as (bk & Hbk & HP); try done.
      { unfold SUB_PULSES_PER_PULSE. lia. }
      { rewrite Z2Nat.id by nia. reflexivity. }
      destruct (tick_in_window (pulses (ir_state b0)) size reps r p s bk false)
        as (b1 & Hb1 & _ & Hled1); try done.
      rewrite andb_false_r in Hled1.
      exists b1. rewrite run_snoc, Hbk. cbn [mbind option_bind].
      split; [done|]. split; [done|]. rewrite Hled1, Hled. discriminate.
Qed.

Lemma engine_replays_then_stops_witness :
  wf_board cool_armed /\
  midea_ir_send cool_22 reset_board = Some cool_armed /\
  (forall r p s, 0 <= r < 2 -> 0 <= p < 172 -> 0 <= s <= 42 ->
     exists b, run (Z.to_nat (43 * (172 * r + p) + s)) cool_armed = Some b /\
       pulses (ir_state b) = pulses (ir_state cool_armed) /\
       pulses_size (ir_state b) = 172 /\
       repeat_count (ir_state b) = 2 - r /\
       current_pulse (ir_state b) = p /\
       current_sub_pulse (ir_state b) = s /\
       htim1_running b = true /\
       (s < 42 ->
        exists v b1, pulse_at (pulses (ir_state cool_armed)) p = Some v /\
          TIM1_IRQ b = Some b1 /\
          IR_LED b1 = if Z.even s && v then GPIO_PIN_RESET else GPIO_PIN_SET)) /\
  exists b, run (Z.to_nat (43 * 172 * 2)) cool_armed = Some b /\
    pulses (ir_state b) = pulses (ir_state cool_armed) /\
    repeat_count (ir_state b) = 0 /\
    htim1_running b = false /\
    IR_LED b = GPIO_PIN_RESET /\
    (forall n, run (Z.to_nat (43 * 172 * 2) + n) cool_armed = Some b) /\
    (forall r p s, 0 <= r < 2 -> 0 <= p < 172 -> 0 <= s < 42 ->
       pulse_at (pulses (ir_state cool_armed)) p = Some false ->
       exists b1, run (S (Z.to_nat (43 * (172 * r + p) + s))) cool_armed = Some b1 /\
         IR_LED b1 = GPIO_PIN_SET /\ IR_LED b1 <> IR_LED b).
Proof.
  split; [reflexivity|]. split; [vm_compute; reflexivity|].
  apply (engine_replays_then_stops cool_armed 172 2);
    first [reflexivity | unfold PULSES_CAPACITY; lia].
Defined.

(** C2: the two levels differ.  On the board armed by the deflector command,
    slot 8 is a space and every one of its 42 sub-ticks writes
    [GPIO_PIN_SET] to the line, as does every odd sub-tick of the mark in
    slot 0, whose even sub-ticks write [GPIO_PIN_RESET]; the tick that
    completes the transmission, like [midea_ir_init], writes
    [GPIO_PIN_RESET]. *)
Theorem space_level_differs_from_completion_level :
  midea_ir_move_deflector ir_off_a reset_board = Some deflector_armed /\
  pulse_at (pulses (ir_state deflector_armed)) 8 = Some false /\
  pulse_at (pulses (ir_state deflector_armed)) 0 = Some true /\
  (forall s, (1 <= s <= 42)%nat ->
     IR_LED <$> run (43 * 8 + s) deflector_armed = Some GPIO_PIN_SET) /\
  (forall s, (1 <= s <= 42)%nat ->
     IR_LED <$> run s deflector_armed
     = Some (if Nat.odd s then GPIO_PIN_RESET else GPIO_PIN_SET)) /\
  (exists b, run (43 * 172) deflector_armed = Some b /\
     repeat_count (ir_state b) = 0 /\ htim1_running b = false /\
     IR_LED b = GPIO_PIN_RESET) /\
  GPIO_PIN_SET <> GPIO_PIN_RESET.
Proof.
  split; [vm_compute; reflexivity|].
  split; [reflexivity|]. split; [reflexivity|].
  assert (Hrange : forall (P : nat -> bool),
            forallb P (seq 1 42) = true ->
            forall s, (1 <= s <= 42)%nat -> P s = true).
  { intros P HP s Hs. rewrite forallb_forall in HP. apply HP, in_seq. lia. }
  split; [|split; [|split]].
  - intros s Hs.
    apply (Hrange (fun s => bool_decide
             (IR_LED <$> run (43 * 8 + s) deflector_armed = Some GPIO_PIN_SET)))
      in Hs; [by apply bool_decide_eq_true_1 in Hs|].
    vm_compute. reflexivity.
  - intros s Hs.
    apply (Hrange (fun s => bool_decide
             (IR_LED <$> run s deflector_armed
              = Some (if Nat.odd s then GPIO_PIN_RESET else GPIO_PIN_SET))))
      in Hs; [by apply bool_decide_eq_true_1 in Hs|].
    vm_compute. reflexivity.
  - eexists. split; [vm_compute; reflexivity|]. repeat split.
  - discriminate.
Qed.

(** * Further properties *)

(** ** Checking a finite range by computation *)

Lemma Z_range_forallb (n : nat) (P : Z -> bool) :
  forallb (fun k => P (Z.of_nat k)) (seq 0 n) = true ->
  forall z, 0 <= z < Z.of_nat n -> P z = true.
Proof.
  intros Hall z Hz. rewrite forallb_forall in Hall.
  specialize (Hall (Z.to_nat z)). rewrite Z2Nat.id in Hall by lia.
  apply Hall, in_seq. lia.
Qed.

(** ** Frames of complement pairs *)

Lemma data_slot_count_app (f g : list Z) :
  data_slot_count (f ++ g) = data_slot_count f + data_slot_count g.
Proof.
  unfold data_slot_count, frame_bits.
  rewrite flat_map_app, map_app. generalize (flat_map byte_bits g).
  intros l. induction (flat_map byte_bits f) as [|bit bits IH]; [done|].
  simpl. rewrite IH. lia.
Qed.

Lemma complement_pair_slot_count (x : Z) :
  is_byte x -> data_slot_count [ x; u8 (Z.lnot x) ] = 48.
Proof.
  intros Hx. apply Z.eqb_eq.
  apply (Z_range_forallb 256
           (fun x => data_slot_count [ x; u8 (Z.lnot x) ] =? 48));
    [vm_compute; reflexivity|exact Hx].
Qed.

Lemma add_complementary_bytes_3 (x0 x1 x2 : Z) :
  add_complementary_bytes [ x0; x1; x2 ]
  = Some [ x0; u8 (Z.lnot x0); x1; u8 (Z.lnot x1); x2; u8 (Z.lnot x2) ].
Proof. reflexivity. Qed.

(** X1: a frame of three bytes and their complements has 24 zero bits and 24
    one bits, so the builder always records 172 slots for it. *)
Theorem complement_frame_slot_count (packet : list Z) (repeat : Z) (b : Board) :
  wf_board b -> length packet = 3%nat -> Forall is_byte packet ->
  exists frame b', add_complementary_bytes packet = Some frame /\
    send_ir_data frame repeat b = Some b' /\
    pulses_size (ir_state b') = 172.
Proof.
  intros Hwf Hlen Hbytes.
  destruct packet as [|x0 [|x1 [|x2 [|]]]]; try discriminate.
  apply Forall_cons in Hbytes as [H0 Hbytes].
  apply Forall_cons in Hbytes as [H1 Hbytes].
  apply Forall_cons in Hbytes as [H2 _].
  rewrite add_complementary_bytes_3. eexists.
  destruct (send_ir_data_armed
              [ x0; u8 (Z.lnot x0); x1; u8 (Z.lnot x1); x2; u8 (Z.lnot x2) ]
              repeat b Hwf eq_refl) as (b' & Hsend & _ & _ & Hsize & _).
  exists b'. split; [reflexivity|]. split; [exact Hsend|].
  rewrite Hsize. unfold slot_count.
  change [ x0; u8 (Z.lnot x0); x1; u8 (Z.lnot x1); x2; u8 (Z.lnot x2) ]
    with ([ x0; u8 (Z.lnot x0) ] ++ [ x1; u8 (Z.lnot x1) ]
          ++ [ x2; u8 (Z.lnot x2) ]).
  rewrite !data_slot_count_app, !complement_pair_slot_count by done. done.
Qed.

Lemma complement_frame_slot_count_witness :
  wf_board reset_board /\ length sample_packet = 3%nat /\
  Forall is_byte sample_packet /\
  exists frame b', add_complementary_bytes sample_packet = Some frame /\
    send_ir_data frame 2 reset_board = Some b' /\
    pulses_size (ir_state b') = 172.
Proof.
  assert (Hb : Forall is_byte sample_packet).
  { unfold sample_packet, is_byte. repeat constructor; lia. }
  split; [reflexivity|]. split; [reflexivity|]. split; [exact Hb|].
  apply (complement_frame_slot_count sample_packet 2 reset_board);
    [reflexivity|reflexivity|exact Hb].
Defined.

Lemma lxor_mask_absorbed (m : Z) : Z.lxor m 0xFF = 0xFF -> m = 0.
Proof.
  intros H. apply (f_equal (fun z => Z.lxor z 0xFF)) in H.
  rewrite Z.lxor_assoc, Z.lxor_nilpotent, Z.lxor_0_r in H. exact H.
Qed.

Lemma flipped_pair_fails (x c m : Z) :
  Z.lxor x c = 0xFF -> m <> 0 ->
  Z.lxor (Z.lxor x m) c <> 0xFF /\ Z.lxor x (Z.lxor c m) <> 0xFF.
Proof.
  intros Hxc Hm.
  split; intros H; apply Hm, lxor_mask_absorbed;
    rewrite <- Hxc at 1; rewrite <- H;
    apply Z.bits_inj'; intros n _; rewrite !Z.lxor_spec;
    destruct (Z.testbit x n), (Z.testbit c n), (Z.testbit m n); reflexivity.
Qed.

(** X2: flipping one bit of one byte of a frame made by
    [add_complementary_bytes] breaks the complement relation of the pair the
    byte belongs to, so a receiver that checks the relation detects it. *)
Theorem single_bit_flip_detected (packet frame : list Z) (k : nat) (x j : Z) :
  length packet = 3%nat -> Forall is_byte packet ->
  add_complementary_bytes packet = Some frame ->
  frame !! k = Some x -> 0 <= j < 8 ->
  complement_ok frame /\
  ~ complement_ok (<[k := Z.lxor x (Z.shiftl 1 j)]> frame).
Proof.
  intros Hlen Hbytes Hframe Hk Hj.
  destruct packet as [|x0 [|x1 [|x2 [|]]]]; try discriminate.
  apply Forall_cons in Hbytes as [H0 Hbytes].
  apply Forall_cons in Hbytes as [H1 Hbytes].
  apply Forall_cons in Hbytes as [H2 _].
  rewrite add_complementary_bytes_3 in Hframe. simplify_eq.
  pose proof (byte_xor_complement x0 H0) as P0.
  pose proof (byte_xor_complement x1 H1) as P1.
  pose proof (byte_xor_complement x2 H2) as P2.
  assert (Hm : Z.shiftl 1 j <> 0).
  { rewrite Z.shiftl_1_l. pose proof (Z.pow_pos_nonneg 2 j). lia. }
  split.
  - intros i a b [-> | [-> | ->]] Ha Hb; simpl in Ha, Hb; by simplify_eq.
  - intros Hok.
    destruct k as [|[|[|[|[|[|k]]]]]]; simpl in Hk; simplify_eq.
    + apply (proj1 (flipped_pair_fails _ _ _ P0 Hm)).
      apply (Hok 0%nat); [auto|reflexivity|reflexivity].
    + apply (proj2 (flipped_pair_fails _ _ _ P0 Hm)).
      apply (Hok 0%nat); [auto|reflexivity|reflexivity].
    + apply (proj1 (flipped_pair_fails _ _ _ P1 Hm)).
      apply (Hok 2%nat); [auto|reflexivity|reflexivity].
    + apply (proj2 (flipped_pair_fails _ _ _ P1 Hm)).
      apply (Hok 2%nat); [auto|reflexivity|reflexivity].
    + apply (proj1 (flipped_pair_fails _ _ _ P2 Hm)).
      apply (Hok 4%nat); [auto|reflexivity|reflexivity].
    + apply (proj2 (flipped_pair_fails _ _ _ P2 Hm)).
      apply (Hok 4%nat); [auto|reflexivity|reflexivity].
Qed.

Lemma single_bit_flip_detected_witness :
  length sample_packet = 3%nat /\ Forall is_byte sample_packet /\
  add_complementary_bytes sample_packet = Some [ 0xB2; 0x4D; 0x5F; 0xA0; 0x70; 0x8F ] /\
  [ 0xB2; 0x4D; 0x5F; 0xA0; 0x70; 0x8F ] !! 3%nat = Some 0xA0 /\ 0 <= 5 < 8 /\
  complement_ok [ 0xB2; 0x4D; 0x5F; 0xA0; 0x70; 0x8F ] /\
  ~ complement_ok
      (<[3%nat := Z.lxor 0xA0 (Z.shiftl 1 5)]> [ 0xB2; 0x4D; 0x5F; 0xA0; 0x70; 0x8F ]).
Proof.
  assert (Hb : Forall is_byte sample_packet).
  { unfold sample_packet, is_byte. repeat constructor; lia. }
  split; [reflexivity|]. split; [exact Hb|]. split; [reflexivity|].
  split; [reflexivity|]. split; [lia|].
  apply (single_bit_flip_detected sample_packet
           [ 0xB2; 0x4D; 0x5F; 0xA0; 0x70; 0x8F ] 3 0xA0 5);
    [reflexivity|exact Hb|reflexivity|reflexivity|lia].
Defined.

(** ** What the packet encoder keeps of a state *)

Lemma fan_table_NoDup : NoDup fan_table.
Proof. apply (bool_decide_unpack _). vm_compute. exact I. Qed.

Lemma temperature_table_NoDup : NoDup temperature_table.
Proof. apply (bool_decide_unpack _). vm_compute. exact I. Qed.

Lemma arr_get_NoDup_inj (a : list Z) (i j v : Z) :
  NoDup a -> arr_get a i = Some v -> arr_get a j = Some v -> i = j.
Proof.
  intros Hnd Hi Hj. apply arr_get_Some in Hi as [Hi0 Hi], Hj as [Hj0 Hj].
  pose proof (NoDup_lookup a _ _ v Hnd Hi Hj). lia.
Qed.

Lemma mode_value_inj (m1 m2 : MideaMode) :
  mode_value m1 = mode_value m2 -> m1 = m2.
Proof. destruct m1, m2; simpl; intros H; congruence. Qed.

(** Reading a packet back into what [pack_data] did. *)
Lemma pack_data_Some_inv (ir : MideaIR) (p : DataPacket) :
  pack_data ir = Some p ->
  magic p = 0xB2 /\
  0 <= state p < 16 /\ 0 <= fan p < 16 /\
  0 <= command p < 16 /\ 0 <= temp p < 16 /\
  (enabled ir = false ->
   p = {| magic := 0xB2; state := 11; fan := 7; command := 0; temp := 14 |}) /\
  (enabled ir = true ->
   state p = 15 /\ command p = mode_value (mode ir) /\
   (mode ir <> MODE_AUTO -> arr_get fan_table (fan_level ir) = Some (fan p)) /\
   (mode ir <> MODE_FAN -> 17 <= temperature ir <= 30 ->
      arr_get temperature_table (temperature ir - 17) = Some (temp p))).
Proof.
  intros Hp.
  assert (Hok : enabled ir = false \/ mode ir = MODE_AUTO \/ 0 <= fan_level ir < 4).
  { destruct (enabled ir) eqn:Hen; [|by left]. right.
    destruct (MideaMode_eqb (mode ir) MODE_AUTO) eqn:Hm0.
    { left. by apply MideaMode_eqb_eq. }
    assert (Hm : mode ir <> MODE_AUTO).
    { intros Heq. apply MideaMode_eqb_eq in Heq. congruence. }
    right. destruct (decide (0 <= fan_level ir < 4)) as [|Hf]; [done|].
    rewrite (pack_data_fan_level_out_of_range ir Hen Hm Hf) in Hp. done. }
  destruct (pack_data_in_range ir Hok)
    as (p' & Hp' & Hmag & Hst & Hfan & Hcmd & Htmp & Htemp).
  rewrite Hp in Hp'. injection Hp' as <-.
  repeat (split; [done|]). split.
  - intros Hen. unfold pack_data in Hp. rewrite Hen in Hp. by injection Hp as <-.
  - intros Hen. unfold pack_data in Hp. rewrite Hen in Hp.
    destruct (MideaMode_eqb (mode ir) MODE_AUTO) eqn:Hauto;
      cbn [mbind option_bind] in Hp.
    + destruct (_ : option Z) as [t|] eqn:Ht in Hp; [|done].
      cbn [mbind option_bind] in Hp. injection Hp as <-. simpl.
      apply MideaMode_eqb_eq in Hauto. rewrite Hauto.
      repeat split; try done. intros _ Hr.
      destruct (Htemp Hen) as [Ht1 _]; [by rewrite Hauto|]. by apply Ht1.
    + destruct (arr_get fan_table (fan_level ir)) as [f|] eqn:Hf; [|done].
      cbn [fmap option_fmap option_map mbind option_bind] in Hp.
      destruct (_ : option Z) as [t|] eqn:Ht in Hp; [|done].
      cbn [mbind option_bind] in Hp. injection Hp as <-. simpl.
      assert (Hnib : nib f = f).
      { apply arr_get_Some in Hf as [_ Hf]. apply list_elem_of_lookup_2 in Hf.
        unfold fan_table in Hf. rewrite !elem_of_cons, elem_of_nil in Hf.
        repeat (destruct Hf as [->|Hf]; [done|]). done. }
      rewrite Hnib. split; [done|]. split.
      { by destruct (mode ir). }
      split; [done|]. intros Hm Hr.
      destruct (Htemp Hen Hm) as [Ht1 _]. by apply Ht1.
Qed.

(** X3: the packet tells the settings apart.  Two states encoded to the same
    packet are both on or both off; if on, they have the same mode, the same
    fan level unless the mode is Auto, and the same temperature unless the
    mode is Fan or a temperature lies outside 17..30. *)
Theorem pack_data_injective (ir1 ir2 : MideaIR) (p : DataPacket) :
  pack_data ir1 = Some p -> pack_data ir2 = Some p ->
  enabled ir1 = enabled ir2 /\
  (enabled ir1 = true ->
   mode ir1 = mode ir2 /\
   (mode ir1 <> MODE_AUTO -> fan_level ir1 = fan_level ir2) /\
   (mode ir1 <> MODE_FAN ->
    17 <= temperature ir1 <= 30 -> 17 <= temperature ir2 <= 30 ->
    temperature ir1 = temperature ir2)).
Proof.
  intros H1 H2.
  destruct (pack_data_Some_inv ir1 p H1) as (_ & _ & _ & _ & _ & Hoff1 & Hon1).
  destruct (pack_data_Some_inv ir2 p H2) as (_ & _ & _ & _ & _ & Hoff2 & Hon2).
  assert (Hen : enabled ir1 = enabled ir2).
  { destruct (enabled ir1), (enabled ir2); try done.
    - destruct (Hon1 eq_refl) as (Hs & _). rewrite (Hoff2 eq_refl) in Hs. done.
    - destruct (Hon2 eq_refl) as (Hs & _). rewrite (Hoff1 eq_refl) in Hs. done. }
  split; [done|]. intros Hen1.
  destruct (Hon1 Hen1) as (_ & Hc1 & Hf1 & Ht1).
  rewrite Hen in Hen1. destruct (Hon2 Hen1) as (_ & Hc2 & Hf2 & Ht2).
  assert (Hmode : mode ir1 = mode ir2) by (apply mode_value_inj; congruence).
  split; [done|]. split.
  - intros Hm.
    apply (arr_get_NoDup_inj fan_table _ _ (fan p) fan_table_NoDup);
      [by apply Hf1|apply Hf2; congruence].
  - intros Hm Hr1 Hr2.
    assert (temperature ir1 - 17 = temperature ir2 - 17); [|lia].
    apply (arr_get_NoDup_inj temperature_table _ _ (temp p)
             temperature_table_NoDup);
      [by apply Ht1|apply Ht2; [congruence|done]].
Qed.

Lemma pack_data_injective_witness :
  pack_data (mkMideaIR 22 0 MODE_AUTO true)
  = Some {| magic := 0xB2; state := 15; fan := 1; command := 8; temp := 7 |} /\
  pack_data (mkMideaIR 22 3 MODE_AUTO true)
  = Some {| magic := 0xB2; state := 15; fan := 1; command := 8; temp := 7 |} /\
  enabled (mkMideaIR 22 0 MODE_AUTO true)
  = enabled (mkMideaIR 22 3 MODE_AUTO true) /\
  (enabled (mkMideaIR 22 0 MODE_AUTO true) = true ->
   mode (mkMideaIR 22 0 MODE_AUTO true) = mode (mkMideaIR 22 3 MODE_AUTO true) /\
   (mode (mkMideaIR 22 0 MODE_AUTO true) <> MODE_AUTO ->
    fan_level (mkMideaIR 22 0 MODE_AUTO true)
    = fan_level (mkMideaIR 22 3 MODE_AUTO true)) /\
   (mode (mkMideaIR 22 0 MODE_AUTO true) <> MODE_FAN ->
    17 <= temperature (mkMideaIR 22 0 MODE_AUTO true) <= 30 ->
    17 <= temperature (mkMideaIR 22 3 MODE_AUTO true) <= 30 ->
    temperature (mkMideaIR 22 0 MODE_AUTO true)
    = temperature (mkMideaIR 22 3 MODE_AUTO true))).
Proof.
  split; [reflexivity|]. split; [reflexivity|].
  apply (pack_data_injective (mkMideaIR 22 0 MODE_AUTO true)
           (mkMideaIR 22 3 MODE_AUTO true)
           {| magic := 0xB2; state := 15; fan := 1; command := 8; temp := 7 |});
    reflexivity.
Defined.

(** X4: a temperature outside 17..30 is sent as 24 degrees: the fallback
    nibble 0b0100 is the table entry of 24. *)
Theorem pack_data_temperature_fallback (ir : MideaIR) :
  ~ 17 <= temperature ir <= 30 ->
  pack_data ir
  = pack_data (mkMideaIR 24 (fan_level ir) (mode ir) (enabled ir)).
Proof.
  intros Hr. unfold pack_data. cbn [enabled mode fan_level temperature].
  destruct (enabled ir); [|done].
  destruct (if MideaMode_eqb (mode ir) MODE_AUTO then _ else _) as [f|]; [|done].
  cbn [mbind option_bind].
  destruct (MideaMode_eqb (mode ir) MODE_FAN); [done|].
  unfold TEMP_LOW, TEMP_HIGH.
  destruct (Z.leb_spec 17 (temperature ir)), (Z.leb_spec (temperature ir) 30);
    try lia; reflexivity.
Qed.

Lemma pack_data_temperature_fallback_witness :
  ~ 17 <= temperature (mkMideaIR 99 3 MODE_COOL true) <= 30 /\
  pack_data (mkMideaIR 99 3 MODE_COOL true)
  = pack_data (mkMideaIR 24 3 MODE_COOL true).
Proof.
  assert (H : ~ 17 <= temperature (mkMideaIR 99 3 MODE_COOL true) <= 30)
    by (simpl; lia).
  split; [exact H|].
  apply (pack_data_temperature_fallback (mkMideaIR 99 3 MODE_COOL true) H).
Defined.

(** ** From a state to the waveform and back *)

Lemma nibble_pack (a b : Z) :
  0 <= a < 16 -> 0 <= b < 16 -> Z.lor a (Z.shiftl b 4) = a + 16 * b.
Proof.
  intros Ha Hb. apply Z.eqb_eq.
  apply (Z_range_forallb 16
           (fun a => Z.lor a (Z.shiftl b 4) =? a + 16 * b)); [|exact Ha].
  apply (Z_range_forallb 16
           (fun b => forallb (fun k => Z.lor (Z.of_nat k) (Z.shiftl b 4)
                                       =? Z.of_nat k + 16 * b) (seq 0 16)));
    [vm_compute; reflexivity|exact Hb].
Qed.

Lemma pulse_train_inj (f g : list Z) :
  length f = RAW_DATA_PACKET_SIZE -> length g = RAW_DATA_PACKET_SIZE ->
  Forall is_byte f -> Forall is_byte g ->
  pulse_train f = pulse_train g -> f = g.
Proof.
  intros Hf Hg Bf Bg Heq.
  pose proof (decode_pulse_train f Hf Bf) as Df.
  pose proof (decode_pulse_train g Hg Bg) as Dg.
  rewrite Heq in Df. congruence.
Qed.

(** What [midea_ir_send] leaves behind, in terms of the packet. *)
Lemma midea_ir_send_inv (ir : MideaIR) (b b' : Board) :
  wf_board b -> midea_ir_send ir b = Some b' ->
  exists p, pack_data ir = Some p /\
    let frame := [ magic p; u8 (Z.lnot (magic p));
                   state p + 16 * fan p; u8 (Z.lnot (state p + 16 * fan p));
                   command p + 16 * temp p;
                   u8 (Z.lnot (command p + 16 * temp p)) ] in
    Forall is_byte frame /\
    wf_board b' /\
    slots_of (ir_state b') = Some (pulse_train frame) /\
    pulses_size (ir_state b') = 172 /\
    repeat_count (ir_state b') = 2 /\
    current_pulse (ir_state b') = 0 /\
    current_sub_pulse (ir_state b') = 0 /\
    htim1_running b' = true.
Proof.
  intros Hwf Hsend. unfold midea_ir_send in Hsend.
  destruct (pack_data ir) as [p|] eqn:Hp; [|done].
  cbn [mbind option_bind] in Hsend.
  destruct (pack_data_Some_inv ir p Hp) as (Hmag & Hst & Hfan & Hcmd & Htmp & _).
  unfold packet_bytes in Hsend.
  rewrite !nibble_pack, add_complementary_bytes_3 in Hsend by done.
  cbn [mbind option_bind] in Hsend.
  set (frame := [ magic p; u8 (Z.lnot (magic p));
                  state p + 16 * fan p; u8 (Z.lnot (state p + 16 * fan p));
                  command p + 16 * temp p;
                  u8 (Z.lnot (command p + 16 * temp p)) ]) in *.
  destruct (send_ir_data_armed frame 2 b Hwf eq_refl)
    as (b1 & Hb1 & Hwf1 & Hslots & Hsize & Hrep & Hcp & Hsub & Hrun).
  rewrite Hsend in Hb1. injection Hb1 as <-.
  assert (Hbytes : Forall is_byte frame).
  { assert (Hu : forall z, is_byte (u8 z)).
    { intros z. unfold is_byte, u8. apply Z.mod_pos_bound. lia. }
    unfold frame. repeat constructor; try apply Hu; unfold is_byte; lia. }
  exists p. split; [done|]. cbn zeta. fold frame.
  repeat (split; [done|]). split; [|done].
  rewrite Hsize. unfold slot_count, frame.
  change [ magic p; u8 (Z.lnot (magic p));
           state p + 16 * fan p; u8 (Z.lnot (state p + 16 * fan p));
           command p + 16 * temp p; u8 (Z.lnot (command p + 16 * temp p)) ]
    with ([ magic p; u8 (Z.lnot (magic p)) ]
          ++ [ state p + 16 * fan p; u8 (Z.lnot (state p + 16 * fan p)) ]
          ++ [ command p + 16 * temp p;
               u8 (Z.lnot (command p + 16 * temp p)) ]).
  rewrite !data_slot_count_app, !complement_pair_slot_count;
    [done|unfold is_byte; lia..].
Qed.

(** X5: the whole path from a state to the slots can be read back: decoding
    the slots [midea_ir_send] leaves in the buffer gives the magic byte
    0xB2, the byte [fan * 16 + state] and the byte [temp * 16 + command],
    each followed by one more byte. *)
Theorem receiver_recovers_packet (ir : MideaIR) (b b' : Board) :
  wf_board b -> midea_ir_send ir b = Some b' ->
  exists p slots c0 c1 c2,
    pack_data ir = Some p /\
    slots_of (ir_state b') = Some slots /\
    decode_slots slots
    = Some [ 0xB2; c0; state p + 16 * fan p; c1; command p + 16 * temp p; c2 ].
Proof.
  intros Hwf Hsend.
  destruct (midea_ir_send_inv ir b b' Hwf Hsend)
    as (p & Hp & Hbytes & _ & Hslots & _).
  destruct (pack_data_Some_inv ir p Hp) as (Hmag & _).
  exists p. eexists. eexists. eexists. eexists.
  split; [done|]. split; [exact Hslots|].
  rewrite decode_pulse_train by done. by rewrite Hmag.
Qed.

Lemma receiver_recovers_packet_witness :
  wf_board reset_board /\
  exists b', midea_ir_send (mkMideaIR 22 2 MODE_COOL true) reset_board = Some b' /\
  exists p slots c0 c1 c2,
    pack_data (mkMideaIR 22 2 MODE_COOL true) = Some p /\
    slots_of (ir_state b') = Some slots /\
    decode_slots slots
    = Some [ 0xB2; c0; state p + 16 * fan p; c1; command p + 16 * temp p; c2 ].
Proof.
  split; [reflexivity|]. eexists. split; [vm_compute; reflexivity|].
  apply (receiver_recovers_packet (mkMideaIR 22 2 MODE_COOL true) reset_board);
    [reflexivity|vm_compute; reflexivity].
Defined.

(** X6: two calls of [midea_ir_send] that leave the same slots in the buffer
    were given states with the same packet. *)
Theorem waveform_determines_packet (ir1 ir2 : MideaIR) (b1 b2 b1' b2' : Board) :
  wf_board b1 -> wf_board b2 ->
  midea_ir_send ir1 b1 = Some b1' -> midea_ir_send ir2 b2 = Some b2' ->
  slots_of (ir_state b1') = slots_of (ir_state b2') ->
  pack_data ir1 = pack_data ir2.
Proof.
  intros Hwf1 Hwf2 Hs1 Hs2 Heq.
  destruct (midea_ir_send_inv ir1 b1 b1' Hwf1 Hs1)
    as (p1 & Hp1 & Hb1 & _ & Hsl1 & _).
  destruct (midea_ir_send_inv ir2 b2 b2' Hwf2 Hs2)
    as (p2 & Hp2 & Hb2 & _ & Hsl2 & _).
  rewrite Hsl1, Hsl2 in Heq.
  match type of Heq with
  | Some (pulse_train ?f) = Some (pulse_train ?g) =>
      assert (Hfg : f = g)
        by (apply pulse_train_inj;
            [reflexivity|reflexivity|exact Hb1|exact Hb2|congruence])
  end.
  clear Heq Hsl1 Hsl2 Hb1 Hb2.
  destruct (pack_data_Some_inv ir1 p1 Hp1) as (_ & ? & ? & ? & ? & _).
  destruct (pack_data_Some_inv ir2 p2 Hp2) as (_ & ? & ? & ? & ? & _).
  rewrite Hp1, Hp2. f_equal.
  destruct p1 as [m1 s1 f1 c1 t1], p2 as [m2 s2 f2 c2 t2]. simpl in *.
  simplify_eq. f_equal; lia.
Qed.

Lemma waveform_determines_packet_witness :
  wf_board reset_board /\ wf_board deflector_armed /\
  exists b1' b2',
    midea_ir_send (mkMideaIR 22 0 MODE_AUTO true) reset_board = Some b1' /\
    midea_ir_send (mkMideaIR 22 3 MODE_AUTO true) deflector_armed = Some b2' /\
    slots_of (ir_state b1') = slots_of (ir_state b2') /\
    pack_data (mkMideaIR 22 0 MODE_AUTO true)
    = pack_data (mkMideaIR 22 3 MODE_AUTO true).
Proof.
  split; [reflexivity|]. split; [reflexivity|].
  eexists. eexists.
  split; [vm_compute; reflexivity|]. split; [vm_compute; reflexivity|].
  split; [vm_compute; reflexivity|].
  eapply (waveform_determines_packet
            (mkMideaIR 22 0 MODE_AUTO true) (mkMideaIR 22 3 MODE_AUTO true)
            reset_board deflector_armed);
    [reflexivity|reflexivity|vm_compute; reflexivity|vm_compute; reflexivity
    |vm_compute; reflexivity].
Defined.

(** ** The callback at every tick *)

Lemma Safe_intro (b : Board) :
  wf_board b ->
  (htim1_running b = true ->
   0 <= current_pulse (ir_state b) < pulses_size (ir_state b) /\
   pulses_size (ir_state b) <= 232) ->
  Safe b.
Proof. intros Hwf H. split; [exact Hwf|exact H]. Qed.

Lemma TIM1_IRQ_Safe (b : Board) :
  Safe b ->
  exists b', TIM1_IRQ b = Some b' /\ Safe b' /\
    pulses (ir_state b') = pulses (ir_state b) /\
    pulses_size (ir_state b') = pulses_size (ir_state b).
Proof.
  intros [Hwf Hrun]. unfold TIM1_IRQ.
  destruct (htim1_running b) eqn:Hr; [|exists b; repeat split; try done; congruence].
  destruct (Hrun eq_refl) as [Hcp Hsz]. unfold wf_board in Hwf.
  change (8 * Z.of_nat PULSES_CAPACITY) with 232 in Hsz.
  destruct (pulse_at_playing (pulses (ir_state b)) (pulses_size (ir_state b)))
    with (p := current_pulse (ir_state b)) as [v Hv];
    [rewrite Hwf; change (Z.of_nat PULSES_CAPACITY) with 29; lia|exact Hcp|].
  unfold HAL_TIM_PeriodElapsedCallback. rewrite Hv. cbn [mbind option_bind].
  destruct (current_sub_pulse (ir_state b) <? SUB_PULSES_PER_PULSE).
  { eexists. split; [reflexivity|].
    destruct (negb _ && v);
      (split; [apply Safe_intro; [exact Hwf|intros _; simpl; lia]|done]). }
  cbn [with_ir ir_state pulses_size current_pulse set_current_pulse
       set_current_sub_pulse set_repeat_count repeat_count].
  assert (Hu : u8 (current_pulse (ir_state b) + 1) = current_pulse (ir_state b) + 1)
    by (unfold u8; apply Z.mod_small; lia).
  rewrite Hu.
  destruct (Z.leb_spec (pulses_size (ir_state b)) (current_pulse (ir_state b) + 1)).
  - destruct (truthy (u8 (repeat_count (ir_state b) - 1))).
    + eexists. split; [reflexivity|].
      split; [apply Safe_intro; [exact Hwf|intros _; simpl; lia]|done].
    + eexists. split; [reflexivity|].
      split; [apply Safe_intro; [exact Hwf|simpl; discriminate]|done].
  - eexists. split; [reflexivity|].
    split; [apply Safe_intro; [exact Hwf|intros _; simpl; lia]|done].
Qed.

Lemma run_Safe (n : nat) :
  forall b, Safe b ->
  exists b', run n b = Some b' /\ Safe b' /\
    pulses (ir_state b') = pulses (ir_state b) /\
    pulses_size (ir_state b') = pulses_size (ir_state b).
Proof.
  induction n as [|n IH]; intros b HS; [by exists b|].
  destruct (TIM1_IRQ_Safe b HS) as (b1 & Hb1 & HS1 & Hp1 & Hz1).
  destruct (IH b1 HS1) as (b2 & Hb2 & HS2 & Hp2 & Hz2).
  exists b2. cbn [run]. rewrite Hb1. cbn [mbind option_bind].
  split; [done|]. split; [done|]. split; congruence.
Qed.

Lemma send_ir_data_Safe (frame : list Z) (repeat : Z) (b b' : Board) :
  wf_board b -> length frame = RAW_DATA_PACKET_SIZE ->
  send_ir_data frame repeat b = Some b' -> Safe b'.
Proof.
  intros Hwf Hlen Hsend.
  destruct (send_ir_data_armed frame repeat b Hwf Hlen)
    as (b1 & Hb1 & Hwf1 & _ & Hsize & _ & Hcp & _).
  rewrite Hsend in Hb1. injection Hb1 as <-.
  pose proof (slot_count_bounds frame Hlen).
  apply Safe_intro; [done|]. intros _. rewrite Hcp, Hsize. lia.
Qed.

(** X7: after [send_ir_data], for any repeat count and any number of timer
    interrupts, the callback reads only slots inside the buffer and leaves
    the buffer as it was built: the slots are still those of the frame. *)
Theorem callback_keeps_slots (frame : list Z) (repeat : Z) (b : Board) (n : nat) :
  wf_board b -> length frame = RAW_DATA_PACKET_SIZE ->
  exists b0 bn, send_ir_data frame repeat b = Some b0 /\
    run n b0 = Some bn /\
    pulses (ir_state bn) = pulses (ir_state b0) /\
    slots_of (ir_state bn) = Some (pulse_train frame).
Proof.
  intros Hwf Hlen.
  destruct (send_ir_data_armed frame repeat b Hwf Hlen)
    as (b0 & Hb0 & _ & Hslots & _).
  destruct (run_Safe n b0 (send_ir_data_Safe frame repeat b b0 Hwf Hlen Hb0))
    as (bn & Hbn & _ & Hps & Hsz).
  exists b0, bn. repeat (split; [done|]).
  unfold slots_of in *. by rewrite Hps, Hsz.
Qed.

Lemma callback_keeps_slots_witness :
  wf_board reset_board /\ length deflector_frame = RAW_DATA_PACKET_SIZE /\
  exists b0 bn, send_ir_data deflector_frame 0 reset_board = Some b0 /\
    run 4000 b0 = Some bn /\
    pulses (ir_state bn) = pulses (ir_state b0) /\
    slots_of (ir_state bn) = Some (pulse_train deflector_frame).
Proof.
  split; [reflexivity|]. split; [reflexivity|].
  apply (callback_keeps_slots deflector_frame 0 reset_board 4000); reflexivity.
Defined.

(** ** How long a transmission takes *)

Lemma tick_index_decompose (size reps n : Z) :
  1 <= size -> 0 <= n < TICKS_PER_SLOT * size * reps ->
  exists r p s, 0 <= r < reps /\ 0 <= p < size /\
    0 <= s <= SUB_PULSES_PER_PULSE /\ n = tick_index size r p s.
Proof.
  unfold tick_index, TICKS_PER_SLOT, SUB_PULSES_PER_PULSE. simpl Z.add.
  intros Hsize Hn.
  pose proof (Z.div_mod n 43 ltac:(lia)) as Hn43.
  pose proof (Z.mod_pos_bound n 43 ltac:(lia)) as Hs.
  pose proof (Z.div_mod (n / 43) size ltac:(lia)) as Hq.
  pose proof (Z.mod_pos_bound (n / 43) size ltac:(lia)) as Hp.
  exists (n / 43 / size), ((n / 43) mod size), (n mod 43).
  assert (0 <= n / 43) by (apply Z.div_pos; lia).
  assert (0 <= n / 43 / size) by (apply Z.div_pos; lia).
  repeat split; try lia. nia.
Qed.

(** Before the last tick the engine is busy. *)
Lemma run_busy (b0 : Board) (size reps : Z) (n : nat) :
  1 <= size <= 8 * Z.of_nat (length (pulses (ir_state b0))) -> size <= 255 ->
  1 <= reps <= 255 ->
  Playing (pulses (ir_state b0)) size reps 0 0 0 b0 ->
  Z.of_nat n < TICKS_PER_SLOT * size * reps ->
  exists b, run n b0 = Some b /\ htim1_running b = true /\
            1 <= repeat_count (ir_state b) <= reps.
Proof.
  intros Hsize Hsize8 Hreps H0 Hn.
  destruct (tick_index_decompose size reps (Z.of_nat n))
    as (r & p & s & Hr & Hp & Hs & Hidx); [lia|lia|].
  destruct (run_position (pulses (ir_state b0)) size reps Hsize Hsize8 Hreps
              b0 H0 n r p s Hr Hp Hs Hidx) as (b & Hb & _ & _ & Hrc & _ & _ & Hrun).
  exists b. split; [done|]. split; [done|]. lia.
Qed.

(** X9: a transmission started by [midea_ir_send] keeps the timer running
    for exactly 14792 interrupts (2 passes of 172 slots of 43 ticks) and one
    started by [midea_ir_move_deflector] for exactly 7396; the engine is busy
    at every earlier tick and idle, with the timer stopped, from then on. *)
Theorem transmission_lengths (ir : MideaIR) (b : Board) :
  wf_board b ->
  (forall b0, midea_ir_send ir b = Some b0 ->
     (forall n : nat, Z.of_nat n < 14792 ->
        exists bn, run n b0 = Some bn /\ htim1_running bn = true /\
                   1 <= repeat_count (ir_state bn)) /\
     exists bend, run (Z.to_nat 14792) b0 = Some bend /\
       htim1_running bend = false /\ repeat_count (ir_state bend) = 0) /\
  exists b0, midea_ir_move_deflector ir b = Some b0 /\
    (forall n : nat, Z.of_nat n < 7396 ->
       exists bn, run n b0 = Some bn /\ htim1_running bn = true /\
                  1 <= repeat_count (ir_state bn)) /\
    exists bend, run (Z.to_nat 7396) b0 = Some bend /\
      htim1_running bend = false /\ repeat_count (ir_state bend) = 0.
Proof.
  intros Hwf. split.
  - intros b0 Hsend.
    destruct (midea_ir_send_inv ir b b0 Hwf Hsend)
      as (p & _ & _ & Hwf0 & _ & Hsize & Hrep & Hcp & Hsub & Hrun).
    unfold wf_board in Hwf0.
    assert (Hlen : 1 <= 172 <= 8 * Z.of_nat (length (pulses (ir_state b0))))
      by (rewrite Hwf0; done).
    assert (H0 : Playing (pulses (ir_state b0)) 172 2 0 0 0 b0)
      by (repeat split; done).
    split.
    + intros n Hn.
      destruct (run_busy b0 172 2 n Hlen ltac:(lia) ltac:(lia) H0)
        as (bn & Hbn & Hr & Hc);
        [unfold TICKS_PER_SLOT, SUB_PULSES_PER_PULSE; lia|].
      exists bn. split; [done|]. split; [done|]. lia.
    + destruct (run_completes (pulses (ir_state b0)) 172 2 Hlen
                  ltac:(lia) ltac:(lia) b0 H0)
        as (bend & Hbend & (_ & _ & Hrc & Hstop & _) & _).
      exists bend. done.
  - unfold midea_ir_move_deflector.
    change (add_complementary_bytes [ 0xB2; 0x0F; 0xE0 ])
      with (Some deflector_frame). cbn [mbind option_bind].
    destruct (send_ir_data_armed deflector_frame 1 b Hwf eq_refl)
      as (b0 & Hb0 & Hwf0 & _ & Hsize & Hrep & Hcp & Hsub & Hrun).
    change (slot_count deflector_frame) with 172 in Hsize.
    change (u8 1) with 1 in Hrep. unfold wf_board in Hwf0.
    assert (Hlen : 1 <= 172 <= 8 * Z.of_nat (length (pulses (ir_state b0))))
      by (rewrite Hwf0; done).
    assert (H0 : Playing (pulses (ir_state b0)) 172 1 0 0 0 b0)
      by (repeat split; done).
    exists b0. split; [done|]. split.
    + intros n Hn.
      destruct (run_busy b0 172 1 n Hlen ltac:(lia) ltac:(lia) H0)
        as (bn & Hbn & Hr & Hc);
        [unfold TICKS_PER_SLOT, SUB_PULSES_PER_PULSE; lia|].
      exists bn. split; [done|]. split; [done|]. lia.
    + destruct (run_completes (pulses (ir_state b0)) 172 1 Hlen
                  ltac:(lia) ltac:(lia) b0 H0)
        as (bend & Hbend & (_ & _ & Hrc & Hstop & _) & _).
      exists bend. done.
Qed.

Lemma transmission_lengths_witness :
  wf_board reset_board /\
  exists b0, midea_ir_move_deflector ir_off_a reset_board = Some b0 /\
    (forall n : nat, Z.of_nat n < 7396 ->
       exists bn, run n b0 = Some bn /\ htim1_running bn = true /\
                  1 <= repeat_count (ir_state bn)) /\
    exists bend, run (Z.to_nat 7396) b0 = Some bend /\
      htim1_running bend = false /\ repeat_count (ir_state bend) = 0.
Proof.
  split; [reflexivity|].
  apply (transmission_lengths ir_off_a reset_board). reflexivity.
Defined.

(** ** A running timer with no repeat left *)

Section Wrap.
Variables (ps : list Z) (size : Z).
Hypothesis Hsize : 1 <= size <= 8 * Z.of_nat (length ps).
Hypothesis Hsize8 : size <= 255.

(** The tick after the window when [repeat_count] is already 0: the
    decrement at the end of the pass wraps to 255. *)
Lemma tick_after_window_wrap (p : Z) (b : Board) :
  Playing ps size 0 0 p SUB_PULSES_PER_PULSE b -> 0 <= p < size ->
  exists b', TIM1_IRQ b = Some b' /\
    if p + 1 <? size then Playing ps size 0 0 (p + 1) 0 b'
    else Playing ps size 255 0 0 0 b'.
Proof.
  intros (Hps & Hsz & Hrc & Hcp & Hsub & Hrun) Hp.
  destruct (pulse_at_playing ps size Hsize p Hp) as [v Hv].
  unfold TIM1_IRQ, HAL_TIM_PeriodElapsedCallback. rewrite Hrun, Hps, Hcp, Hv, Hsub.
  cbn [mbind option_bind]. rewrite Z.ltb_irrefl.
  cbn [with_ir ir_state pulses_size current_pulse set_current_pulse
       set_current_sub_pulse set_repeat_count repeat_count].
  rewrite Hsz, Hrc.
  assert (Hu : u8 (p + 1) = p + 1) by (unfold u8; apply Z.mod_small; lia).
  rewrite Hu. change (truthy (u8 (0 - 0 - 1))) with true. cbv iota.
  destruct (Z.ltb_spec (p + 1) size), (Z.leb_spec size (p + 1)); try lia;
    (eexists; split; [reflexivity|]; repeat split; simpl; auto).
Qed.

(** With [repeat_count] 0 and the timer running, the current pass is played
    to its end and 255 passes are then due. *)
Lemma run_pass_count_zero (n : nat) :
  forall (b : Board) (p s : Z),
    Playing ps size 0 0 p s b -> 0 <= p < size ->
    0 <= s <= SUB_PULSES_PER_PULSE ->
    Z.of_nat n = TICKS_PER_SLOT * (size - p) - s ->
    exists b', run n b = Some b' /\ Playing ps size 255 0 0 0 b'.
Proof.
  unfold TICKS_PER_SLOT, SUB_PULSES_PER_PULSE. simpl Z.add.
  induction n as [|n IH]; intros b p s HP Hp Hs Hn; [lia|].
  cbn [run].
  destruct (decide (s < 42)) as [Hlt|Hge].
  - destruct (pulse_at_playing ps size Hsize p Hp) as [v Hv].
    destruct (tick_in_window ps size 0 0 p s b v HP Hv) as (b1 & -> & HP1 & _);
      [unfold SUB_PULSES_PER_PULSE; lia|].
    cbn [mbind option_bind]. apply (IH b1 p (s + 1)); try done; lia.
  - assert (s = 42) as -> by lia.
    destruct (tick_after_window_wrap p b HP Hp) as (b1 & -> & HP1).
    cbn [mbind option_bind].
    destruct (Z.ltb_spec (p + 1) size).
    + apply (IH b1 (p + 1) 0); try done; lia.
    + assert (n = 0%nat) as -> by lia. exists b1. done.
Qed.
End Wrap.

(** X10: [midea_ir_init] does not cancel a transmission.  Called while the
    engine plays (timer running, at slot [p] and sub-tick [s] of a pass), it
    sets [repeat_count] to 0 and leaves the timer running; the pass is played
    to its end, where the decrement wraps [repeat_count] to 255, and the
    engine goes idle only after 255 further passes. *)
Theorem init_while_playing (ir : MideaIR) (b : Board) (size p s : Z) :
  wf_board b -> htim1_running b = true ->
  pulses_size (ir_state b) = size ->
  current_pulse (ir_state b) = p ->
  current_sub_pulse (ir_state b) = s ->
  0 <= p < size -> size <= 8 * Z.of_nat PULSES_CAPACITY -> 0 <= s <= 42 ->
  let bi := (midea_ir_init ir b).2 in
  repeat_count (ir_state bi) = 0 /\ htim1_running bi = true /\
  (exists b1, run (Z.to_nat (43 * (size - p) - s)) bi = Some b1 /\
     repeat_count (ir_state b1) = 255 /\
     current_pulse (ir_state b1) = 0 /\ current_sub_pulse (ir_state b1) = 0 /\
     htim1_running b1 = true /\
     pulses (ir_state b1) = pulses (ir_state b)) /\
  (forall n : nat, Z.of_nat n < 43 * (size - p) - s + 43 * size * 255 ->
     exists bn, run n bi = Some bn /\ htim1_running bn = true) /\
  exists b2, run (Z.to_nat (43 * (size - p) - s + 43 * size * 255)) bi = Some b2 /\
    repeat_count (ir_state b2) = 0 /\ htim1_running b2 = false.
Proof.
  intros Hwf Hrun Hsz Hcp Hsub Hp Hcap Hs bi.
  unfold wf_board in Hwf. change (8 * Z.of_nat PULSES_CAPACITY) with 232 in Hcap.
  assert (Hlen : 1 <= size <= 8 * Z.of_nat (length (pulses (ir_state b))))
    by (rewrite Hwf; change (Z.of_nat PULSES_CAPACITY) with 29; lia).
  assert (Hsize8 : size <= 255) by lia.
  assert (HPi : Playing (pulses (ir_state b)) size 0 0 p s bi)
    by (repeat split; done).
  destruct (run_pass_count_zero (pulses (ir_state b)) size Hlen Hsize8
              (Z.to_nat (43 * (size - p) - s)) bi p s HPi Hp)
    as (b1 & Hb1 & HP1); [unfold SUB_PULSES_PER_PULSE; lia| |].
  { unfold TICKS_PER_SLOT, SUB_PULSES_PER_PULSE. lia. }
  split; [done|]. split; [done|]. split; [|split].
  - exists b1. split; [done|].
    destruct HP1 as (H1 & H2 & H3 & H4 & H5 & H6). done.
  - intros n Hn.
    destruct (decide (Z.of_nat n < 43 * (size - p) - s)) as [Hfirst|Hlater].
    + assert (HS : Safe bi) by (apply Safe_intro; [exact Hwf|intros _; simpl; lia]).
      destruct (run_Safe n bi HS) as (bn & Hbn & _).
      exists bn. split; [done|].
      destruct (htim1_running bn) eqn:Hr; [done|exfalso].
      replace (Z.to_nat (43 * (size - p) - s))
        with (n + (Z.to_nat (43 * (size - p) - s) - n))%nat in Hb1 by lia.
      rewrite run_add, Hbn in Hb1. cbn [mbind option_bind] in Hb1.
      rewrite (run_stopped _ bn Hr) in Hb1. injection Hb1 as <-.
      destruct HP1 as (_ & _ & _ & _ & _ & Hr1). congruence.
    + pose proof HP1 as (Hps1 & _).
      destruct (run_busy b1 size 255 (n - Z.to_nat (43 * (size - p) - s)))
        as (bn & Hbn & Hr & _);
        [by rewrite Hps1|done|lia|by rewrite Hps1
        |unfold TICKS_PER_SLOT, SUB_PULSES_PER_PULSE; lia|].
      exists bn. split; [|done].
      replace n with (Z.to_nat (43 * (size - p) - s)
                      + (n - Z.to_nat (43 * (size - p) - s)))%nat at 1 by lia.
      rewrite run_add, Hb1. cbn [mbind option_bind]. exact Hbn.
  - destruct (run_completes (pulses (ir_state b)) size 255 Hlen Hsize8
                ltac:(lia) b1 HP1) as (b2 & Hb2 & (_ & _ & Hrc & Hstop & _) & _).
    exists b2. split; [|done].
    rewrite Z2Nat.inj_add by (unfold TICKS_PER_SLOT, SUB_PULSES_PER_PULSE; lia).
    rewrite run_add, Hb1. cbn [mbind option_bind]. exact Hb2.
Qed.

Lemma init_while_playing_witness :
  wf_board deflector_armed /\ htim1_running deflector_armed = true /\
  let bi := (midea_ir_init ir_off_a deflector_armed).2 in
  repeat_count (ir_state bi) = 0 /\ htim1_running bi = true /\
  (exists b1, run (Z.to_nat (43 * (172 - 0) - 0)) bi = Some b1 /\
     repeat_count (ir_state b1) = 255 /\
     current_pulse (ir_state b1) = 0 /\ current_sub_pulse (ir_state b1) = 0 /\
     htim1_running b1 = true /\
     pulses (ir_state b1) = pulses (ir_state deflector_armed)) /\
  (forall n : nat, Z.of_nat n < 43 * (172 - 0) - 0 + 43 * 172 * 255 ->
     exists bn, run n bi = Some bn /\ htim1_running bn = true) /\
  exists b2, run (Z.to_nat (43 * (172 - 0) - 0 + 43 * 172 * 255)) bi = Some b2 /\
    repeat_count (ir_state b2) = 0 /\ htim1_running b2 = false.
Proof.
  split; [reflexivity|]. split; [reflexivity|].
  apply (init_while_playing ir_off_a deflector_armed 172 0 0);
    first [reflexivity | unfold PULSES_CAPACITY; lia].
Defined.

(** ** The display driver *)

Lemma bcd_loop_more_fuel (fuel : nat) :
  forall (fuel' : nat) (a b : Z) (r : Z * Z),
    bcd_loop fuel a b = Some r -> (fuel <= fuel')%nat ->
    bcd_loop fuel' a b = Some r.
Proof.
  induction fuel as [|fuel IH]; intros fuel' a b r Hr Hle.
  - destruct fuel'; simpl in *; destruct (10 <=? b); done.
  - destruct fuel' as [|fuel']; [lia|]. simpl in *.
    destruct (10 <=? b); [|done]. apply (IH fuel'); [done|lia].
Qed.

Lemma Z_range_decide (n : nat) (P : Z -> Prop) `{!forall z, Decision (P z)} :
  forallb (fun k => bool_decide (P (Z.of_nat k))) (seq 0 n) = true ->
  forall z, 0 <= z < Z.of_nat n -> P z.
Proof.
  intros Hall z Hz.
  pose proof (Z_range_forallb n (fun z => bool_decide (P z)) Hall z Hz) as HP.
  by apply bool_decide_eq_true_1 in HP.
Qed.

Lemma bcd_loop_digits (v : Z) :
  is_byte v -> bcd_loop BCD_FUEL 0 v = Some ((v / 10) mod 10, v mod 10).
Proof.
  apply (Z_range_decide 256
           (fun v => bcd_loop BCD_FUEL 0 v = Some ((v / 10) mod 10, v mod 10))).
  vm_compute. reflexivity.
Qed.

Lemma DisplayDecimal_buffer (fuel : nat) (w : Z) :
  is_byte w -> (BCD_FUEL <= fuel)%nat ->
  DisplayDecimal fuel w
  = Some (mkSpiTransfer
            [ 0xFF - nth (Z.to_nat ((w / 10) mod 10)) pattern 0;
              0xFF - nth (Z.to_nat (w mod 10)) pattern 0 ] 1).
Proof.
  intros Hw Hfuel. unfold DisplayDecimal.
  rewrite (bcd_loop_more_fuel BCD_FUEL fuel 0 w _ (bcd_loop_digits w Hw) Hfuel).
  cbn [mbind option_bind]. revert w Hw.
  apply (Z_range_decide 256
    (fun w =>
       (p1 ← arr_get pattern (w mod 10);
        p0 ← arr_get pattern ((w / 10) mod 10);
        Some (mkSpiTransfer [ u8 (0xFF - p0); u8 (0xFF - p1) ] 1))
       = Some (mkSpiTransfer
                 [ 0xFF - nth (Z.to_nat ((w / 10) mod 10)) pattern 0;
                   0xFF - nth (Z.to_nat (w mod 10)) pattern 0 ] 1))).
  vm_compute. reflexivity.
Qed.

Lemma DisplayHex_buffer (v : Z) :
  is_byte v ->
  DisplayHex v
  = Some (mkSpiTransfer
            [ 0xFF - nth (Z.to_nat (v / 16)) pattern 0;
              0xFF - nth (Z.to_nat (v mod 16)) pattern 0 ] 1).
Proof.
  revert v.
  apply (Z_range_decide 256
    (fun v => DisplayHex v
              = Some (mkSpiTransfer
                        [ 0xFF - nth (Z.to_nat (v / 16)) pattern 0;
                          0xFF - nth (Z.to_nat (v mod 16)) pattern 0 ] 1))).
  vm_compute. reflexivity.
Qed.

(** Distinct digits have distinct patterns. *)
Lemma pattern_digit_inj (i j : Z) :
  0 <= i < 16 -> 0 <= j < 16 ->
  nth (Z.to_nat i) pattern 0 = nth (Z.to_nat j) pattern 0 -> i = j.
Proof.
  intros Hi Hj.
  pose proof (Z_range_decide 16
    (fun i => Forall (fun k => nth (Z.to_nat i) pattern 0 = nth k pattern 0 ->
                               i = Z.of_nat k) (seq 0 16))) as Hall.
  specialize (Hall ltac:(vm_compute; reflexivity) i Hi).
  rewrite Forall_forall in Hall.
  specialize (Hall (Z.to_nat j) ltac:(apply elem_of_seq; lia)).
  intros Heq. rewrite Hall by done. lia.
Qed.

(** X11: for every [uint8_t] value the loop of [DisplayDecimal] ends within
    25 rounds and both table reads are in range; the buffer holds the
    inverted patterns of the tens digit and of the units digit, and the
    hundreds are dropped (123 is shown as 23). *)
Theorem DisplayDecimal_digits (fuel : nat) (value : Z) :
  is_byte value -> (BCD_FUEL <= fuel)%nat ->
  DisplayDecimal fuel value
  = Some (mkSpiTransfer
            [ 0xFF - nth (Z.to_nat ((value / 10) mod 10)) pattern 0;
              0xFF - nth (Z.to_nat (value mod 10)) pattern 0 ] 1) /\
  DisplayDecimal fuel value = DisplayDecimal fuel (value mod 100).
Proof.
  intros Hv Hfuel. split; [by apply DisplayDecimal_buffer|].
  rewrite !DisplayDecimal_buffer;
    [|unfold is_byte in *; pose proof (Z.mod_pos_bound value 100); lia|done..].
  assert (H12 : (value mod 100 / 10) mod 10 = (value / 10) mod 10 /\
                (value mod 100) mod 10 = value mod 10).
  { revert value Hv.
    apply (Z_range_decide 256
      (fun v => (v mod 100 / 10) mod 10 = (v / 10) mod 10 /\
                (v mod 100) mod 10 = v mod 10)).
    vm_compute. reflexivity. }
  destruct H12 as [H1 H2]. by rewrite H1, H2.
Qed.

Lemma DisplayDecimal_digits_witness :
  is_byte 123 /\ (BCD_FUEL <= 30)%nat /\
  DisplayDecimal 30 123
  = Some (mkSpiTransfer
            [ 0xFF - nth (Z.to_nat ((123 / 10) mod 10)) pattern 0;
              0xFF - nth (Z.to_nat (123 mod 10)) pattern 0 ] 1) /\
  DisplayDecimal 30 123 = DisplayDecimal 30 (123 mod 100).
Proof.
  assert (Hb : is_byte 123) by (unfold is_byte; lia).
  assert (Hf : (BCD_FUEL <= 30)%nat) by (unfold BCD_FUEL; lia).
  split; [exact Hb|]. split; [exact Hf|].
  apply (DisplayDecimal_digits 30 123 Hb Hf).
Defined.

(** X12: [DisplayHex] never reads outside the pattern table, whatever its
    argument; for a [uint8_t] value the buffer holds the inverted pattern of
    the high nibble, then that of the low nibble. *)
Theorem DisplayHex_digits (value : Z) :
  (exists t, DisplayHex value = Some t) /\
  (is_byte value ->
   DisplayHex value
   = Some (mkSpiTransfer
             [ 0xFF - nth (Z.to_nat (value / 16)) pattern 0;
               0xFF - nth (Z.to_nat (value mod 16)) pattern 0 ] 1)).
Proof.
  split.
  - unfold DisplayHex.
    assert (Hnib : forall z, 0 <= Z.land z 0x0F < 16).
    { intros z. change 0x0F with (Z.ones 4). rewrite Z.land_ones by lia.
      apply Z.mod_pos_bound. lia. }
    destruct (arr_get_in_range pattern (Z.land (Z.shiftr value 4) 0x0F))
      as [p0 ->]; [pose proof (Hnib (Z.shiftr value 4)); simpl length; lia|].
    destruct (arr_get_in_range pattern (Z.land value 0x0F))
      as [p1 ->]; [pose proof (Hnib value); simpl length; lia|].
    simpl. eauto.
  - apply DisplayHex_buffer.
Qed.

Lemma DisplayHex_digits_witness :
  is_byte 0xA5 /\
  DisplayHex 0xA5
  = Some (mkSpiTransfer
            [ 0xFF - nth (Z.to_nat (0xA5 / 16)) pattern 0;
              0xFF - nth (Z.to_nat (0xA5 mod 16)) pattern 0 ] 1).
Proof.
  assert (Hb : is_byte 0xA5) by (unfold is_byte; lia).
  split; [exact Hb|]. exact (proj2 (DisplayHex_digits 0xA5) Hb).
Defined.

(** X13: the display is unambiguous.  Two [uint8_t] values shown by
    [DisplayHex] with the same buffer are equal, and two values shown by
    [DisplayDecimal] with the same buffer agree modulo 100. *)
Theorem display_unambiguous (fuel : nat) (v w : Z) :
  is_byte v -> is_byte w -> (BCD_FUEL <= fuel)%nat ->
  (DisplayHex v = DisplayHex w -> v = w) /\
  (DisplayDecimal fuel v = DisplayDecimal fuel w -> v mod 100 = w mod 100).
Proof.
  intros Hv Hw Hfuel. unfold is_byte in Hv, Hw. split.
  - rewrite !DisplayHex_buffer by done. intros Heq.
    assert (H1 : 0xFF - nth (Z.to_nat (v / 16)) pattern 0
                 = 0xFF - nth (Z.to_nat (w / 16)) pattern 0) by congruence.
    assert (H0 : 0xFF - nth (Z.to_nat (v mod 16)) pattern 0
                 = 0xFF - nth (Z.to_nat (w mod 16)) pattern 0) by congruence.
    assert (Hh : v / 16 = w / 16).
    { apply pattern_digit_inj;
        [split; [apply Z.div_pos|apply Z.div_lt_upper_bound]; lia..|lia]. }
    assert (Hl : v mod 16 = w mod 16).
    { apply pattern_digit_inj; [apply Z.mod_pos_bound; lia..|lia]. }
    rewrite (Z.div_mod v 16), (Z.div_mod w 16) by lia. congruence.
  - rewrite !DisplayDecimal_buffer by done. intros Heq.
    assert (H1 : 0xFF - nth (Z.to_nat ((v / 10) mod 10)) pattern 0
                 = 0xFF - nth (Z.to_nat ((w / 10) mod 10)) pattern 0)
      by congruence.
    assert (H0 : 0xFF - nth (Z.to_nat (v mod 10)) pattern 0
                 = 0xFF - nth (Z.to_nat (w mod 10)) pattern 0) by congruence.
    assert (Hrange : forall z, 0 <= z mod 10 < 16)
      by (intros z; pose proof (Z.mod_pos_bound z 10); lia).
    assert (Hh : (v / 10) mod 10 = (w / 10) mod 10).
    { apply pattern_digit_inj; [apply Hrange..|lia]. }
    assert (Hl : v mod 10 = w mod 10).
    { apply pattern_digit_inj; [apply Hrange..|lia]. }
    assert (Hdec : forall z, 0 <= z < 256 ->
              z mod 100 = 10 * ((z / 10) mod 10) + z mod 10).
    { apply (Z_range_decide 256
        (fun z => z mod 100 = 10 * ((z / 10) mod 10) + z mod 10)).
      vm_compute. reflexivity. }
    rewrite (Hdec v), (Hdec w) by done. congruence.
Qed.

Lemma display_unambiguous_witness :
  is_byte 23 /\ is_byte 123 /\ (BCD_FUEL <= 25)%nat /\
  (DisplayHex 23 = DisplayHex 123 -> 23 = 123) /\
  (DisplayDecimal 25 23 = DisplayDecimal 25 123 -> 23 mod 100 = 123 mod 100).
Proof.
  assert (Ha : is_byte 23) by (unfold is_byte; lia).
  assert (Hb : is_byte 123) by (unfold is_byte; lia).
  assert (Hf : (BCD_FUEL <= 25)%nat) by (unfold BCD_FUEL; lia).
  split; [exact Ha|]. split; [exact Hb|]. split; [exact Hf|].
  apply (display_unambiguous 25 23 123 Ha Hb Hf).
Defined.

(** ** Limits of the encoder and of the builder *)

(** X14: [pack_data] reads outside [fan_table] exactly when the state is
    switched on, the mode is not Auto and the fan level is not one of 0..3;
    in every other case it returns a packet. *)
Theorem pack_data_fails_iff (ir : MideaIR) :
  pack_data ir = None <->
  enabled ir = true /\ mode ir <> MODE_AUTO /\ ~ 0 <= fan_level ir < 4.
Proof.
  split.
  - intros Hnone.
    destruct (enabled ir) eqn:Hen.
    2:{ destruct (pack_data_in_range ir) as (p & Hp & _); [by left|congruence]. }
    split; [done|]. split.
    + intros Hm.
      destruct (pack_data_in_range ir) as (p & Hp & _); [by right; left|congruence].
    + intros Hf.
      destruct (pack_data_in_range ir) as (p & Hp & _); [by right; right|congruence].
  - intros (Hen & Hm & Hf). by apply pack_data_fan_level_out_of_range.
Qed.

(** X15: for every frame of 6 bytes the builder records between 124 and 220
    slots, inside the 232 slots of the buffer and inside [uint8_t]; the
    all-zero frame needs 124 and the all-one frame 220. *)
Theorem pulses_size_bounds (frame : list Z) (repeat : Z) (b : Board) :
  wf_board b -> length frame = RAW_DATA_PACKET_SIZE ->
  (exists b', send_ir_data frame repeat b = Some b' /\
     124 <= pulses_size (ir_state b') <= 220 /\
     pulses_size (ir_state b') < 8 * Z.of_nat (length (pulses (ir_state b')))) /\
  (exists b0, send_ir_data [ 0; 0; 0; 0; 0; 0 ] repeat b = Some b0 /\
     pulses_size (ir_state b0) = 124) /\
  (exists b1, send_ir_data [ 255; 255; 255; 255; 255; 255 ] repeat b = Some b1 /\
     pulses_size (ir_state b1) = 220).
Proof.
  intros Hwf Hlen. split; [|split].
  - destruct (send_ir_data_armed frame repeat b Hwf Hlen)
      as (b' & Hb' & Hwf' & _ & Hsize & _).
    pose proof (slot_count_bounds frame Hlen).
    exists b'. split; [done|]. rewrite Hsize. split; [done|].
    unfold wf_board in Hwf'. rewrite Hwf'.
    change (8 * Z.of_nat PULSES_CAPACITY) with 232. lia.
  - destruct (send_ir_data_armed [ 0; 0; 0; 0; 0; 0 ] repeat b Hwf eq_refl)
      as (b' & Hb' & _ & _ & Hsize & _).
    exists b'. done.
  - destruct (send_ir_data_armed [ 255; 255; 255; 255; 255; 255 ] repeat b
                Hwf eq_refl) as (b' & Hb' & _ & _ & Hsize & _).
    exists b'. done.
Qed.

Lemma pulses_size_bounds_witness :
  wf_board reset_board /\ length deflector_frame = RAW_DATA_PACKET_SIZE /\
  exists b', send_ir_data deflector_frame 1 reset_board = Some b' /\
     124 <= pulses_size (ir_state b') <= 220 /\
     pulses_size (ir_state b') < 8 * Z.of_nat (length (pulses (ir_state b'))).
Proof.
  split; [reflexivity|]. split; [reflexivity|].
  apply (pulses_size_bounds deflector_frame 1 reset_board); reflexivity.
Defined.
